(** * ZC-GPA-Calc: the grade-computation engine of [app.js]

    A shallow embedding of the grade-mapping and aggregation functions of
    [app.js] ([mapNumericToGradePoint], [mapLetterToGradePoint],
    [getLetterFromPoint], [computeTermGPA], [computeNewCGPA]) and the
    properties the specification states about them.

    Numbers.  A JavaScript number is an IEEE-754 double.  Finite doubles are
    idealised here as exact rationals ([Q]); the three non-finite values are
    kept as constructors of their own, because the validation and the clamp
    of [mapNumericToGradePoint] treat them specially.  Decimal literals of
    the source ([3.33], [1.67], ...) are the decimal rationals they denote
    and [10/3] is the rational ten thirds, so every comparison between two
    literals of the source has the outcome it has on doubles (module
    [Binary64] at the end evaluates them on binary64 floats).  The fields
    [credits] and [gradePoint] of a course object are finite numbers.
    Rationals neither round nor overflow, so the properties stated are
    those that read the same on doubles: outcomes of comparisons, and
    equalities between values obtained by the same operations in the same
    order. *)

From Stdlib Require Import QArith Qminmax Lqa ZArith Lia.
From Stdlib Require Import List String Bool PrimFloat.
From Stdlib Require Import DecimalString.
Import ListNotations.

Open Scope string_scope.
Open Scope list_scope.
Open Scope Q_scope.

(** ** JavaScript values *)

(** A number: a finite value, or one of the three special doubles. *)
Inductive number : Type :=
| Fin (q : Q)
| Infinity
| NegInfinity
| NaN.

(** The values a caller can pass where the source expects a score, and the
    values a property lookup on an object literal can produce. *)
Inductive value : Type :=
| VNumber (n : number)
| VString (s : string)
| VBoolean (b : bool)
| VUndefined
| VNull
| VFunction (name : string)
| VObject (name : string).

Definition typeof (v : value) : string :=
  match v with
  | VNumber _ => "number"
  | VString _ => "string"
  | VBoolean _ => "boolean"
  | VUndefined => "undefined"
  | VNull => "object"
  | VFunction _ => "function"
  | VObject _ => "object"
  end.

(** [isNaN] applied to a value whose [typeof] is ["number"]. *)
Definition isNaN (n : number) : bool :=
  match n with NaN => true | _ => false end.

(** [x >= y] and [x > y] on finite numbers. *)
Definition Qgeb (x y : Q) : bool := Qle_bool y x.
Definition Qgtb (x y : Q) : bool := negb (Qle_bool x y).

(** [x >= y] on numbers: false as soon as one side is [NaN]. *)
Definition geb (x y : number) : bool :=
  match x, y with
  | NaN, _ | _, NaN => false
  | Infinity, _ => true
  | _, NegInfinity => true
  | NegInfinity, _ => false
  | _, Infinity => false
  | Fin a, Fin b => Qgeb a b
  end.

(** [Math.min] and [Math.max] of two numbers. *)
Definition Math_min (x y : number) : number :=
  match x, y with
  | NaN, _ | _, NaN => NaN
  | NegInfinity, _ | _, NegInfinity => NegInfinity
  | Infinity, z | z, Infinity => z
  | Fin a, Fin b => Fin (Qmin a b)
  end.

Definition Math_max (x y : number) : number :=
  match x, y with
  | NaN, _ | _, NaN => NaN
  | Infinity, _ | _, Infinity => Infinity
  | NegInfinity, z | z, NegInfinity => z
  | Fin a, Fin b => Fin (Qmax a b)
  end.

Declare Scope number_scope.
Delimit Scope number_scope with number.
Infix ">=?" := geb (at level 70, no associativity) : number_scope.

(** ** Grade mapping *)

(** The object [{ letter, point }] returned by the numeric mapper. *)
Module Grade.
Record t : Type := mk { letter : string; point : Q }.
End Grade.

(** [mapNumericToGradePoint(score)]: validation, clamp, then the descending
    chain of thresholds; the first test that succeeds returns.  The first
    branch is [typeof score !== 'number' || isNaN(score)]: the match selects
    the values whose [typeof] is ["number"] (see [typeof_number]). *)
Definition mapNumericToGradePoint (score : value) : Grade.t :=
  match score with
  | VNumber n =>
      if isNaN n then Grade.mk "Invalid" 0
      else
        let score := Math_max (Fin 0) (Math_min (Fin 100) n) in
        if (score >=? Fin 95)%number then Grade.mk "A" 4
        else if (score >=? Fin 90)%number then Grade.mk "A-" (11/3)
        else if (score >=? Fin 85)%number then Grade.mk "B+" (10/3)
        else if (score >=? Fin 80)%number then Grade.mk "B" 3
        else if (score >=? Fin 75)%number then Grade.mk "B-" (8/3)
        else if (score >=? Fin 70)%number then Grade.mk "C+" (7/3)
        else if (score >=? Fin 65)%number then Grade.mk "C" 2
        else if (score >=? Fin 60)%number then Grade.mk "C-" (5/3)
        else Grade.mk "F" 0
  | _ => Grade.mk "Invalid" 0
  end.

(** The object literal [gradePoints]: its own properties, in source order. *)
Definition gradePoints : list (string * Q) :=
  [ ("A", 4); ("A-", 11/3); ("B+", 10/3); ("B", 3); ("B-", 8/3);
    ("C+", 7/3); ("C", 2); ("C-", 5/3); ("F", 0) ].

(** What an object literal inherits: the members of [Object.prototype].
    [gradePoints] is written [{ ... }], so its prototype is
    [Object.prototype] and a lookup that misses the own properties goes on
    there. *)
Definition Object_prototype : list (string * value) :=
  [ ("constructor", VFunction "Object");
    ("hasOwnProperty", VFunction "hasOwnProperty");
    ("isPrototypeOf", VFunction "isPrototypeOf");
    ("propertyIsEnumerable", VFunction "propertyIsEnumerable");
    ("toLocaleString", VFunction "toLocaleString");
    ("toString", VFunction "toString");
    ("valueOf", VFunction "valueOf");
    ("__proto__", VObject "Object.prototype");
    ("__defineGetter__", VFunction "__defineGetter__");
    ("__defineSetter__", VFunction "__defineSetter__");
    ("__lookupGetter__", VFunction "__lookupGetter__");
    ("__lookupSetter__", VFunction "__lookupSetter__") ].

Fixpoint assoc {A : Type} (key : string) (l : list (string * A)) : option A :=
  match l with
  | [] => None
  | (k, v) :: rest => if String.eqb k key then Some v else assoc key rest
  end.

(** [obj[key]] for an object literal with numeric own properties. *)
Definition get (own : list (string * Q)) (key : string) : value :=
  match assoc key own with
  | Some q => VNumber (Fin q)
  | None =>
      match assoc key Object_prototype with
      | Some v => v
      | None => VUndefined
      end
  end.

(** [a ?? b]. *)
Definition nullish (a b : value) : value :=
  match a with
  | VUndefined | VNull => b
  | _ => a
  end.

(** [mapLetterToGradePoint(letter)]: [gradePoints[letter] ?? 0]. *)
Definition mapLetterToGradePoint (letter : string) : value :=
  nullish (get gradePoints letter) (VNumber (Fin 0)).

(** [getLetterFromPoint(point)]. *)
Definition getLetterFromPoint (point : number) : string :=
  if (point >=? Fin 4.00)%number then "A"
  else if (point >=? Fin 3.66)%number then "A-"
  else if (point >=? Fin 3.33)%number then "B+"
  else if (point >=? Fin 3.00)%number then "B"
  else if (point >=? Fin 2.66)%number then "B-"
  else if (point >=? Fin 2.33)%number then "C+"
  else if (point >=? Fin 2.00)%number then "C"
  else if (point >=? Fin 1.67)%number then "C-"
  else "F".

(** ** Term aggregation *)

(** A course object as [collectCourseData] builds it:
    [{ id, name, credits, score, gradePoint, letter, excluded, repeated,
       gradeType }].  [score] is [null] or the parsed number. *)
Module Course.
Record t : Type := mk {
  id : string;
  name : string;
  credits : Q;
  score : value;
  gradePoint : Q;
  letter : string;
  excluded : bool;
  repeated : bool;
  gradeType : string
}.
End Course.

(** An element of [processedCourses]: the spread of the course object with
    the properties the loop adds or overwrites.  The branch for excluded
    courses writes [qualityPoints] and [status] only, so [wasCapped] is an
    optional property there: [None] is the property being absent. *)
Module Processed.
Record t : Type := mk {
  id : string;
  name : string;
  credits : Q;
  score : value;
  gradePoint : Q;
  letter : string;
  excluded : bool;
  repeated : bool;
  gradeType : string;
  qualityPoints : Q;
  wasCapped : option bool;
  status : string
}.
End Processed.

(** [{ ...course, qualityPoints: 0, status: 'excluded' }]. *)
Definition spread_excluded (course : Course.t) : Processed.t :=
  {| Processed.id := Course.id course;
     Processed.name := Course.name course;
     Processed.credits := Course.credits course;
     Processed.score := Course.score course;
     Processed.gradePoint := Course.gradePoint course;
     Processed.letter := Course.letter course;
     Processed.excluded := Course.excluded course;
     Processed.repeated := Course.repeated course;
     Processed.gradeType := Course.gradeType course;
     Processed.qualityPoints := 0;
     Processed.wasCapped := None;
     Processed.status := "excluded" |}.

(** [{ ...course, gradePoint, letter, qualityPoints, wasCapped,
       status: wasCapped ? 'capped' : 'included' }]. *)
Definition spread_included (course : Course.t) (gradePoint : Q)
    (letter : string) (qualityPoints : Q) (wasCapped : bool) : Processed.t :=
  {| Processed.id := Course.id course;
     Processed.name := Course.name course;
     Processed.credits := Course.credits course;
     Processed.score := Course.score course;
     Processed.gradePoint := gradePoint;
     Processed.letter := letter;
     Processed.excluded := Course.excluded course;
     Processed.repeated := Course.repeated course;
     Processed.gradeType := Course.gradeType course;
     Processed.qualityPoints := qualityPoints;
     Processed.wasCapped := Some wasCapped;
     Processed.status := if wasCapped then "capped" else "included" |}.

(** The three variables the loop of [computeTermGPA] updates:
    [totalCredits], [totalQualityPoints] and [processedCourses]. *)
Definition loop_state : Type := (Q * Q * list Processed.t)%type.

(** One iteration of [for (const course of courseRows)]. *)
Definition loop_body (st : loop_state) (course : Course.t) : loop_state :=
  let '(totalCredits, totalQualityPoints, processedCourses) := st in
  if Course.excluded course then
    (totalCredits, totalQualityPoints,
     processedCourses ++ [spread_excluded course])
  else
    let gradePoint := Course.gradePoint course in
    let letter := Course.letter course in
    let wasCapped := false in
    let '(gradePoint, letter, wasCapped) :=
      if Course.repeated course && Qgtb gradePoint 3.33
      then (3.33, "B+", true)
      else (gradePoint, letter, wasCapped) in
    let qualityPoints := Course.credits course * gradePoint in
    (totalCredits + Course.credits course,
     totalQualityPoints + qualityPoints,
     processedCourses
       ++ [spread_included course gradePoint letter qualityPoints wasCapped]).

(** The object [{ gpa, totalCredits, totalQualityPoints, courses }]. *)
Module Term.
Record t : Type := mk {
  gpa : Q;
  totalCredits : Q;
  totalQualityPoints : Q;
  courses : list Processed.t
}.
End Term.

Definition computeTermGPA (courseRows : list Course.t) : Term.t :=
  let '(totalCredits, totalQualityPoints, processedCourses) :=
    fold_left loop_body courseRows (0, 0, []) in
  let gpa :=
    if Qgtb totalCredits 0 then totalQualityPoints / totalCredits else 0 in
  Term.mk gpa totalCredits totalQualityPoints processedCourses.

(** ** Cumulative GPA *)

(** The object [{ cgpa, totalCredits, totalQualityPoints,
    prevQualityPoints }]. *)
Module Cumulative.
Record t : Type := mk {
  cgpa : Q;
  totalCredits : Q;
  totalQualityPoints : Q;
  prevQualityPoints : Q
}.
End Cumulative.

(** [computeNewCGPA(prevCGPA, prevCredits, termQualityPoints, termCredits,
    prevQualityPoints = null)].  The last argument is [None] when it is
    [null] or left out (the default value then makes it [null]). *)
Definition computeNewCGPA (prevCGPA prevCredits termQualityPoints
    termCredits : Q) (prevQualityPoints : option Q) : Cumulative.t :=
  let calculatedPrevQP :=
    match prevQualityPoints with
    | Some explicit => explicit
    | None => prevCGPA * prevCredits
    end in
  let newTotalQualityPoints := calculatedPrevQP + termQualityPoints in
  let newTotalCredits := prevCredits + termCredits in
  let cgpa :=
    if Qgtb newTotalCredits 0
    then newTotalQualityPoints / newTotalCredits else 0 in
  Cumulative.mk cgpa newTotalCredits newTotalQualityPoints calculatedPrevQP.

(** ** Validation *)

(** [x < y] and [x > y] on numbers: false as soon as one side is [NaN]. *)
Definition number_ltb (x y : number) : bool :=
  match x, y with
  | NaN, _ | _, NaN => false
  | Infinity, _ => false
  | _, NegInfinity => false
  | NegInfinity, _ => true
  | _, Infinity => true
  | Fin a, Fin b => Qgtb b a
  end.

Definition number_gtb (x y : number) : bool := number_ltb y x.

Infix "<?" := number_ltb (at level 70, no associativity) : number_scope.
Infix ">?" := number_gtb (at level 70, no associativity) : number_scope.

(** The decimal digits of an index, as a template literal prints it. *)
Definition String_of_nat (n : nat) : string :=
  NilEmpty.string_of_uint (Nat.to_uint n).

Section Coercion.

(** The number a string converts to.  The grammar of numeric strings is
    left open: the functions below are defined for every such
    conversion. *)
Variable StringToNumber : string -> number.

(** The conversion to a number that [isNaN] and the comparisons apply to
    an operand.  A function and [Object.prototype] convert through their
    string forms, which are not numeric. *)
Definition ToNumber (v : value) : number :=
  match v with
  | VNumber n => n
  | VString s => StringToNumber s
  | VBoolean b => if b then Fin 1 else Fin 0
  | VUndefined => NaN
  | VNull => Fin 0
  | VFunction _ => NaN
  | VObject _ => NaN
  end.

(** [v === null]. *)
Definition is_null (v : value) : bool :=
  match v with VNull => true | _ => false end.

(** The body of the callback of [courses.forEach] in [validateCourses],
    for the course at position [num - 1]; [errors.push] appends. *)
Definition validate_course (num : nat) (course : Course.t)
    (errors : list string) : list string :=
  let errors :=
    if Qle_bool (Course.credits course) 0
    then errors ++ [("Course " ++ String_of_nat num
                     ++ ": Credit hours must be greater than 0.")%string]
    else errors in
  let errors :=
    if Qgtb (Course.credits course) 6
    then errors ++ [("Course " ++ String_of_nat num
                     ++ ": Credit hours cannot exceed 6.")%string]
    else errors in
  if negb (Course.excluded course) then
    if String.eqb (Course.gradeType course) "numeric" then
      if is_null (Course.score course)
         || isNaN (ToNumber (Course.score course))
      then errors ++ [("Course " ++ String_of_nat num
                       ++ ": Please enter a valid numeric score.")%string]
      else if (ToNumber (Course.score course) <? Fin 0)%number
              || (ToNumber (Course.score course) >? Fin 100)%number
      then errors ++ [("Course " ++ String_of_nat num
                       ++ ": Score must be between 0 and 100.")%string]
      else errors
    else if String.eqb (Course.letter course) ""
    then errors ++ [("Course " ++ String_of_nat num
                     ++ ": Please select a letter grade.")%string]
    else errors
  else errors.

(** [courses.forEach((course, index) => ...)], from position [index] on. *)
Fixpoint forEach_validate (courses : list Course.t) (index : nat)
    (errors : list string) : list string :=
  match courses with
  | [] => errors
  | course :: rest =>
      forEach_validate rest (S index)
        (validate_course (index + 1) course errors)
  end.

(** [validateCourses(courses)]. *)
Definition validateCourses (courses : list Course.t) : list string :=
  if Nat.eqb (List.length courses) 0
  then ["Please add at least one course."]
  else forEach_validate courses 0 [].

End Coercion.

(** [validateCGPAInputs()], as a function of what it reads: [state.mode]
    and the two numbers [parseFloat] returns for the fields. *)
Definition validateCGPAInputs (mode : string) (prevCGPA prevCredits : number)
    : list string :=
  if negb (String.eqb mode "cgpa") then []
  else
    let errors := [] in
    let errors :=
      if isNaN prevCGPA || (prevCGPA <? Fin 0)%number
         || (prevCGPA >? Fin 4)%number
      then errors ++ ["Previous CGPA must be between 0.00 and 4.00."]
      else errors in
    let errors :=
      if isNaN prevCredits || (prevCredits <? Fin 0)%number
      then errors ++ ["Previous total credits must be 0 or greater."]
      else errors in
    errors.

(** ** The calculation *)

(** What [parseFloat] returns for a field of the form: a number, [NaN]
    and the infinities included. *)
Definition parsed : Type := number.

(** [parseFloat(...) || 0]: zero and [NaN] are falsy. *)
Definition or_zero (f : parsed) : number :=
  match f with
  | NaN => Fin 0
  | Fin q => if Qeq_bool q 0 then Fin 0 else Fin q
  | _ => f
  end.

(** What [calculate] adds to the result in CGPA mode: the properties of the
    object [computeNewCGPA] returned, then [prevCGPA] and [prevCredits].
    [computeNewCGPA] is modelled on finite numbers; a call whose previous
    record is not finite is kept as the call it is, with the two arguments
    it is given. *)
Inductive cumulative_part : Type :=
| Combined (cgpaResult : Cumulative.t) (prevCGPA prevCredits : Q)
| NonFinite (prevCGPA prevCredits : number).

(** [computeNewCGPA(prevCGPA, prevCredits, termResult.totalQualityPoints,
    termResult.totalCredits, null)] and the spread of its result. *)
Definition combine (prevCGPA prevCredits : number)
    (termQualityPoints termCredits : Q) : cumulative_part :=
  match prevCGPA, prevCredits with
  | Fin g, Fin k =>
      Combined (computeNewCGPA g k termQualityPoints termCredits None) g k
  | _, _ => NonFinite prevCGPA prevCredits
  end.

(** The object [calculate] hands to [renderResults]:
    [{ termResult, gpa }], and in CGPA mode the cumulative part. *)
Module Result.
Record t : Type := mk {
  termResult : Term.t;
  gpa : Q;
  cumulative : option cumulative_part
}.
End Result.

(** The two ways [calculate] ends: [showErrors(...)] or
    [renderResults(result)]. *)
Inductive outcome : Type :=
| ShowErrors (errors : list string)
| RenderResults (result : Result.t).

Section Calculate.

Variable StringToNumber : string -> number.

(** [calculate()], as a function of what it reads: [state.mode], the
    courses [collectCourseData] returns and the two parsed fields of the
    previous record. *)
Definition calculate (mode : string) (courses : list Course.t)
    (prevCGPAField prevCreditsField : parsed) : outcome :=
  let courseErrors := validateCourses StringToNumber courses in
  let cgpaErrors :=
    validateCGPAInputs mode prevCGPAField prevCreditsField in
  let allErrors := courseErrors ++ cgpaErrors in
  if Nat.ltb 0 (List.length allErrors) then ShowErrors allErrors
  else
    let includedCourses :=
      filter (fun c => negb (Course.excluded c)) courses in
    if Nat.eqb (List.length includedCourses) 0
    then ShowErrors
           ["All courses are excluded. Cannot calculate GPA with no included courses."]
    else
      let termResult := computeTermGPA courses in
      let result := Result.mk termResult (Term.gpa termResult) None in
      if String.eqb mode "cgpa" then
        let prevCGPA := or_zero prevCGPAField in
        let prevCredits := or_zero prevCreditsField in
        let cgpaResult :=
          combine prevCGPA prevCredits
            (Term.totalQualityPoints termResult)
            (Term.totalCredits termResult) in
        RenderResults
          (Result.mk (Result.termResult result) (Result.gpa result)
             (Some cgpaResult))
      else RenderResults result.

End Calculate.

(** ** What the renderer and the exporter read off a processed record *)

(** The truth value of [course.wasCapped]: an absent property is falsy. *)
Definition truthy_wasCapped (course : Processed.t) : bool :=
  match Processed.wasCapped course with
  | Some b => b
  | None => false
  end.

(** [courses.filter(c => c.excluded).length] and
    [courses.filter(c => c.wasCapped).length] in [renderResults]. *)
Definition excludedCount (courses : list Processed.t) : nat :=
  List.length (filter Processed.excluded courses).

Definition cappedCount (courses : list Processed.t) : nat :=
  List.length (filter truthy_wasCapped courses).

(** The class of a row of the details table in [renderResults]. *)
Definition rowClass (course : Processed.t) : string :=
  if Processed.excluded course then "excluded"
  else if truthy_wasCapped course then "capped" else "".

(** The status column of [exportCSV]. *)
Definition csvStatus (course : Processed.t) : string :=
  if Processed.excluded course then "Excluded"
  else if truthy_wasCapped course then "Capped at B+" else "Included".

(** ** The course rows of the page *)

(** The part of the page the handlers below change: [state.mode],
    [state.courseCounter], and the [data-course-id] of the rows of the
    course list, in document order. *)
Module App.
Record state : Type := mk {
  mode : string;
  courseCounter : nat;
  rows : list nat
}.
End App.

(** [addCourse()]: the counter goes up and the row with the new counter as
    its id is inserted at the start of the list. *)
Definition addCourse (st : App.state) : App.state :=
  let courseCounter := S (App.courseCounter st) in
  App.mk (App.mode st) courseCounter (courseCounter :: App.rows st).

(** [removeCourse(id)]: when a row has the id, its animation starts and a
    timer is set that will remove it; the call itself leaves the rows as
    they are.  The result is the state and the id whose removal is
    scheduled, if any. *)
Definition removeCourse (id : nat) (st : App.state)
    : App.state * option nat :=
  (st, if existsb (Nat.eqb id) (App.rows st) then Some id else None).

(** A list of rows without its first row with the given id, if there is
    one. *)
Fixpoint remove_row (id : nat) (rows : list nat) : list nat :=
  match rows with
  | [] => []
  | r :: rest => if Nat.eqb r id then rest else r :: remove_row id rest
  end.

(** The callback of a timer set by [removeCourse], [row.remove()]: the row
    it holds leaves the list if it is still in it. *)
Definition row_remove (id : nat) (st : App.state) : App.state :=
  App.mk (App.mode st) (App.courseCounter st) (remove_row id (App.rows st)).

(** [resetCalculator()], with the answer given to [confirm]. *)
Definition resetCalculator (confirmed : bool) (st : App.state) : App.state :=
  if negb confirmed then st else App.mk "term" 0 [].

(** [handleModeChange(event)], with [event.target.value]. *)
Definition handleModeChange (value : string) (st : App.state) : App.state :=
  App.mk value (App.courseCounter st) (App.rows st).

(** The state when the script is loaded, and the state once the handler of
    [DOMContentLoaded] has added the initial course. *)
Definition initial_state : App.state := App.mk "term" 0 [].

Definition loaded_state : App.state := addCourse initial_state.

(** What can happen to the page afterwards.  A timer may fire at any later
    time, and for a row that has left the list in the meantime it changes
    nothing; [TimerFires] lets a timer fire for any id in any state, which
    covers every order in which the timers of the page can fire. *)
Inductive event : Type :=
| AddCourse
| RemoveCourse (id : nat)
| TimerFires (id : nat)
| ResetCalculator (confirmed : bool)
| HandleModeChange (value : string).

Definition handle (st : App.state) (e : event) : App.state :=
  match e with
  | AddCourse => addCourse st
  | RemoveCourse id => fst (removeCourse id st)
  | TimerFires id => row_remove id st
  | ResetCalculator confirmed => resetCalculator confirmed st
  | HandleModeChange value => handleModeChange value st
  end.

(** * Definitions used to state the properties *)

(** The chain of thresholds on an already clamped finite score. *)
Definition chain (s : Q) : Grade.t :=
  if Qgeb s 95 then Grade.mk "A" 4
  else if Qgeb s 90 then Grade.mk "A-" (11/3)
  else if Qgeb s 85 then Grade.mk "B+" (10/3)
  else if Qgeb s 80 then Grade.mk "B" 3
  else if Qgeb s 75 then Grade.mk "B-" (8/3)
  else if Qgeb s 70 then Grade.mk "C+" (7/3)
  else if Qgeb s 65 then Grade.mk "C" 2
  else if Qgeb s 60 then Grade.mk "C-" (5/3)
  else Grade.mk "F" 0.

(** [Math.max(0, Math.min(100, q))] on a finite score. *)
Definition clamp (q : Q) : Q := Qmax 0 (Qmin 100 q).

(** The scores at which the letter changes. *)
Definition boundaries : list Q := [60; 65; 70; 75; 80; 85; 90; 95].

(** The numeric mapper at a finite score. *)
Definition scoreToGrade (q : Q) : Grade.t :=
  mapNumericToGradePoint (VNumber (Fin q)).

(** Sum of a list of numbers. *)
Definition Qsum (l : list Q) : Q := fold_right Qplus 0 l.

(** The records that count: those not marked excluded. *)
Definition included (rows : list Course.t) : list Course.t :=
  filter (fun c => negb (Course.excluded c)) rows.

(** The sum of a list of numbers taken the way the loop adds them: from 0,
    left to right. *)
Definition running_sum (l : list Q) : Q := fold_left Qplus l 0.

(** The grade point a record that counts is credited with: its own, or 3.33
    when it is repeated and its own is above 3.33. *)
Definition counted_gradePoint (c : Course.t) : Q :=
  if Course.repeated c && Qgtb (Course.gradePoint c) 3.33
  then 3.33 else Course.gradePoint c.

(** The quality points of a record that counts. *)
Definition contribution (c : Course.t) : Q :=
  Course.credits c * counted_gradePoint c.

(** The element one iteration of the loop pushes for [course]. *)
Definition emitted (course : Course.t) : Processed.t :=
  if Course.excluded course then spread_excluded course
  else if Course.repeated course && Qgtb (Course.gradePoint course) 3.33
  then spread_included course 3.33 "B+" (Course.credits course * 3.33) true
  else spread_included course (Course.gradePoint course)
         (Course.letter course)
         (Course.credits course * Course.gradePoint course) false.

(** The nine grade points of the grading scale. *)
Definition canonical : list Q :=
  [0; 5/3; 2; 7/3; 8/3; 3; 10/3; 11/3; 4].

(** [q] is, as a rational, one of the nine. *)
Definition is_canonical (q : Q) : Prop := Exists (Qeq q) canonical.

(** A course object for a numeric score, with the grade the numeric mapper
    resolves for it, as the numeric branch of [collectCourseData] fills it. *)
Definition numeric_course (id name : string) (credits score : Q)
    (excluded repeated : bool) : Course.t :=
  let mapped := mapNumericToGradePoint (VNumber (Fin score)) in
  Course.mk id name credits (VNumber (Fin score)) (Grade.point mapped)
    (Grade.letter mapped) excluded repeated "numeric".

(** A course object for a letter and its grade point, as the letter branch
    of [collectCourseData] fills it. *)
Definition letter_course (id name : string) (credits : Q) (letter : string)
    (gradePoint : Q) (excluded repeated : bool) : Course.t :=
  Course.mk id name credits VNull gradePoint letter excluded repeated
    "letter".

(** The processed record carries the [wasCapped] property. *)
Definition carries_wasCapped (p : Processed.t) : Prop :=
  exists b, Processed.wasCapped p = Some b.

(** [p] is the input record [c] with its derived properties: the input
    properties other than [gradePoint] and [letter] are those of [c]; an
    excluded record gets [qualityPoints = 0] and [status = 'excluded'] and
    nothing else; any other record gets [wasCapped], the status that goes
    with it, the resolved grade and its quality points. *)
Definition annotated (c : Course.t) (p : Processed.t) : Prop :=
  Processed.id p = Course.id c /\
  Processed.name p = Course.name c /\
  Processed.credits p = Course.credits c /\
  Processed.score p = Course.score c /\
  Processed.excluded p = Course.excluded c /\
  Processed.repeated p = Course.repeated c /\
  Processed.gradeType p = Course.gradeType c /\
  if Course.excluded c then
    Processed.qualityPoints p = 0 /\
    Processed.status p = "excluded" /\
    Processed.wasCapped p = None /\
    Processed.gradePoint p = Course.gradePoint c /\
    Processed.letter p = Course.letter c
  else
    exists b,
      Processed.wasCapped p = Some b /\
      Processed.status p = (if b then "capped" else "included") /\
      Processed.qualityPoints p = Course.credits c * Processed.gradePoint p /\
      if b then Processed.letter p = "B+" /\ Course.repeated c = true
      else Processed.gradePoint p = Course.gradePoint c /\
           Processed.letter p = Course.letter c.

(** The nine letters of the grading scale. *)
Definition letters : list string := map fst gradePoints.

(** [getLetterFromPoint(mapLetterToGradePoint(x))] is [x]. *)
Definition round_trip (x : string) : Prop :=
  exists n, mapLetterToGradePoint x = VNumber n /\ getLetterFromPoint n = x.

(** Two course objects for the examples: a withdrawn 4-credit A marked
    repeated, and a 3-credit B+. *)
Definition withdrawn_A : Course.t :=
  letter_course "1" "Course 1" 4 "A" 4 true true.

Definition kept_B_plus : Course.t :=
  letter_course "2" "Course 2" 3 "B+" (10/3) false false.

(** The grade point the table [gradePoints] gives a letter, 0 for a string
    that is not one of its keys. *)
Definition letterPoint (letter : string) : Q :=
  match assoc letter gradePoints with
  | Some q => q
  | None => 0
  end.

(** What [validateCourses] accepts in a course: credits above 0 and at
    most 6, and, unless the course is excluded, a numeric score that is
    not [null] and converts to a number from 0 to 100 when the grade type
    is ['numeric'], a non-empty letter otherwise. *)
Definition valid_course (StringToNumber : string -> number)
    (c : Course.t) : Prop :=
  0 < Course.credits c <= 6 /\
  (Course.excluded c = false ->
   if String.eqb (Course.gradeType c) "numeric"
   then Course.score c <> VNull /\
        exists q, ToNumber StringToNumber (Course.score c) = Fin q /\
                  0 <= q <= 100
   else Course.letter c <> "").

(** A message about the course numbered [num]. *)
Definition course_message (num : nat) (msg : string) : Prop :=
  exists rest,
    msg = ("Course " ++ String_of_nat num ++ ": " ++ rest)%string.

(** The input record meets the condition of the repeat cap. *)
Definition cap_applies (c : Course.t) : bool :=
  negb (Course.excluded c) && Course.repeated c
  && Qgtb (Course.gradePoint c) 3.33.

(** The states the page can be in: the loaded state and what the handlers
    make of it. *)
Inductive reachable : App.state -> Prop :=
| reachable_loaded : reachable loaded_state
| reachable_handle (st : App.state) (e : event) :
    reachable st -> reachable (handle st e).

(** The ids of the rows go down strictly along the list and lie between 1
    and the counter. *)
Fixpoint descending_below (bound : nat) (rows : list nat) : Prop :=
  match rows with
  | [] => True
  | r :: rest => (1 <= r <= bound)%nat /\ descending_below (r - 1) rest
  end.

(** The label of the status column and the class of the table row that go
    with a value of the [status] property. *)
Definition status_label (status : string) : string :=
  if String.eqb status "excluded" then "Excluded"
  else if String.eqb status "capped" then "Capped at B+"
  else "Included".

Definition status_class (status : string) : string :=
  if String.eqb status "included" then "" else status.

(** * Properties *)

(** ** Comparisons *)

Lemma Qgeb_true (x y : Q) : Qgeb x y = true <-> y <= x.
Proof. unfold Qgeb. apply Qle_bool_iff. Qed.

Lemma Qgeb_false (x y : Q) : Qgeb x y = false <-> x < y.
Proof.
  unfold Qgeb. split; intro H.
  - apply Qnot_le_lt. intro L. apply Qle_bool_iff in L. congruence.
  - destruct (Qle_bool y x) eqn:E; [|reflexivity].
    apply Qle_bool_iff in E. exfalso. apply (Qlt_not_le _ _ H E).
Qed.

Lemma Qgtb_true (x y : Q) : Qgtb x y = true <-> y < x.
Proof.
  unfold Qgtb. rewrite negb_true_iff. apply (Qgeb_false y x).
Qed.

Lemma Qgtb_false (x y : Q) : Qgtb x y = false <-> x <= y.
Proof.
  unfold Qgtb. rewrite negb_false_iff. apply (Qgeb_true y x).
Qed.

Lemma typeof_number (v : value) :
  typeof v = "number" <-> exists n, v = VNumber n.
Proof.
  split.
  - destruct v; simpl; intro H; try discriminate H. eauto.
  - intros [n ->]. reflexivity.
Qed.

(** ** The numeric mapper *)

Lemma mapNumeric_finite (q : Q) :
  mapNumericToGradePoint (VNumber (Fin q)) = chain (clamp q).
Proof. reflexivity. Qed.

Lemma clamp_inside (q : Q) : 0 <= q <= 100 -> clamp q == q.
Proof.
  intros [H0 H1]. unfold clamp.
  rewrite (Q.min_r 100 q) by exact H1. apply Q.max_r. exact H0.
Qed.

Lemma clamp_below (q : Q) : q <= 0 -> clamp q == 0.
Proof.
  intro H. unfold clamp. apply Q.max_l.
  apply Qle_trans with q; [apply Q.le_min_r | exact H].
Qed.

Lemma clamp_above (q : Q) : 100 <= q -> clamp q == 100.
Proof.
  intro H. unfold clamp.
  rewrite (Q.min_l 100 q) by exact H. apply Q.max_r. lra.
Qed.

#[local] Instance chain_compat : Proper (Qeq ==> eq) chain.
Proof.
  intros x y E. unfold chain, Qgeb.
  repeat rewrite (Qleb_comp _ _ (Qeq_refl _) x y E). reflexivity.
Qed.

(** Replaces every threshold test on [s] by the inequality it decides. *)
Ltac split_chain s :=
  repeat match goal with
  | |- context [Qgeb s ?k] =>
      let E := fresh "E" in
      destruct (Qgeb s k) eqn:E;
      [apply Qgeb_true in E | apply Qgeb_false in E]
  end.

Lemma chain_table (s : Q) :
  (95 <= s -> chain s = Grade.mk "A" 4) /\
  (90 <= s < 95 -> chain s = Grade.mk "A-" (11/3)) /\
  (85 <= s < 90 -> chain s = Grade.mk "B+" (10/3)) /\
  (80 <= s < 85 -> chain s = Grade.mk "B" 3) /\
  (75 <= s < 80 -> chain s = Grade.mk "B-" (8/3)) /\
  (70 <= s < 75 -> chain s = Grade.mk "C+" (7/3)) /\
  (65 <= s < 70 -> chain s = Grade.mk "C" 2) /\
  (60 <= s < 65 -> chain s = Grade.mk "C-" (5/3)) /\
  (s < 60 -> chain s = Grade.mk "F" 0).
Proof.
  unfold chain.
  repeat split; intros H; split_chain s;
    solve [reflexivity | exfalso; lra].
Qed.

Lemma chain_monotone (x y : Q) :
  x <= y -> Grade.point (chain x) <= Grade.point (chain y).
Proof.
  intro H. unfold chain.
  split_chain x; split_chain y; cbn [Grade.point];
    solve [exfalso; lra | unfold Qle; simpl; lia].
Qed.

Lemma chain_transitions (x y : Q) :
  x <= y ->
  (Grade.letter (chain x) <> Grade.letter (chain y) <->
   exists b, In b boundaries /\ x < b <= y).
Proof.
  intro H. unfold chain, boundaries.
  split_chain x; split_chain y; cbn [Grade.letter]; try (exfalso; lra).
  all: split;
    [ intro N; try congruence;
      first [ exists 95; split; [simpl; tauto | lra]
            | exists 90; split; [simpl; tauto | lra]
            | exists 85; split; [simpl; tauto | lra]
            | exists 80; split; [simpl; tauto | lra]
            | exists 75; split; [simpl; tauto | lra]
            | exists 70; split; [simpl; tauto | lra]
            | exists 65; split; [simpl; tauto | lra]
            | exists 60; split; [simpl; tauto | lra] ]
    | intros (b & Hb & Hlt & Hle); simpl in Hb;
      try discriminate;
      exfalso; intuition (subst b; lra) ].
Qed.

(** C4.  [mapNumericToGradePoint] clamps a numeric score to [0, 100] (scores
    below 0, [-Infinity] included, are graded as 0; scores above 100,
    [Infinity] included, as 100) and then applies the table with inclusive
    lower bounds: [95,100] is A = 4, [90,95) is A- = 11/3, [85,90) is
    B+ = 10/3, [80,85) is B = 3, [75,80) is B- = 8/3, [70,75) is C+ = 7/3,
    [65,70) is C = 2, [60,65) is C- = 5/3 and [0,60) is F = 0.  Hence the
    grade point is monotone non-decreasing in the score over [0, 100], and
    two scores of [0, 100] get different letters exactly when one of 60, 65,
    70, 75, 80, 85, 90, 95 lies above the lower score and at or below the
    higher one. *)
Theorem C4_numeric_mapper_table :
  (forall q, q <= 0 -> scoreToGrade q = scoreToGrade 0) /\
  (forall q, 100 <= q -> scoreToGrade q = scoreToGrade 100) /\
  mapNumericToGradePoint (VNumber NegInfinity) = scoreToGrade 0 /\
  mapNumericToGradePoint (VNumber Infinity) = scoreToGrade 100 /\
  (forall q, 0 <= q <= 100 ->
     (95 <= q -> scoreToGrade q = Grade.mk "A" 4) /\
     (90 <= q < 95 -> scoreToGrade q = Grade.mk "A-" (11/3)) /\
     (85 <= q < 90 -> scoreToGrade q = Grade.mk "B+" (10/3)) /\
     (80 <= q < 85 -> scoreToGrade q = Grade.mk "B" 3) /\
     (75 <= q < 80 -> scoreToGrade q = Grade.mk "B-" (8/3)) /\
     (70 <= q < 75 -> scoreToGrade q = Grade.mk "C+" (7/3)) /\
     (65 <= q < 70 -> scoreToGrade q = Grade.mk "C" 2) /\
     (60 <= q < 65 -> scoreToGrade q = Grade.mk "C-" (5/3)) /\
     (q < 60 -> scoreToGrade q = Grade.mk "F" 0)) /\
  (forall x y, 0 <= x -> x <= y -> y <= 100 ->
     Grade.point (scoreToGrade x) <= Grade.point (scoreToGrade y)) /\
  (forall x y, 0 <= x -> x <= y -> y <= 100 ->
     (Grade.letter (scoreToGrade x) <> Grade.letter (scoreToGrade y) <->
      exists b, In b boundaries /\ x < b <= y)).
Proof.
  unfold scoreToGrade.
  split; [|split; [|split; [|split; [|split; [|split]]]]].
  - intros q H. rewrite !mapNumeric_finite.
    rewrite (clamp_below q H), (clamp_below 0) by lra. reflexivity.
  - intros q H. rewrite !mapNumeric_finite.
    rewrite (clamp_above q H), (clamp_above 100) by lra. reflexivity.
  - reflexivity.
  - reflexivity.
  - intros q H. rewrite mapNumeric_finite, (clamp_inside q H).
    apply chain_table.
  - intros x y Hx Hxy Hy. rewrite !mapNumeric_finite.
    rewrite (clamp_inside x), (clamp_inside y) by (split; lra).
    apply chain_monotone, Hxy.
  - intros x y Hx Hxy Hy. rewrite !mapNumeric_finite.
    rewrite (clamp_inside x), (clamp_inside y) by (split; lra).
    apply chain_transitions, Hxy.
Qed.

Lemma C4_numeric_mapper_table_witness :
  scoreToGrade 94.9 = Grade.mk "A-" (11/3) /\
  scoreToGrade 95 = Grade.mk "A" 4 /\
  scoreToGrade 59 = Grade.mk "F" 0 /\
  scoreToGrade 60 = Grade.mk "C-" (5/3) /\
  scoreToGrade 250 = scoreToGrade 100 /\
  Grade.point (scoreToGrade 64) <= Grade.point (scoreToGrade 65) /\
  Grade.letter (scoreToGrade 64) <> Grade.letter (scoreToGrade 65).
Proof.
  destruct C4_numeric_mapper_table
    as (_ & Habove & _ & _ & Htable & Hmono & Htrans).
  split; [|split; [|split; [|split; [|split; [|split]]]]].
  - apply (Htable 94.9); lra.
  - apply (Htable 95); lra.
  - apply (Htable 59); lra.
  - apply (Htable 60); lra.
  - apply (Habove 250); lra.
  - apply (Hmono 64 65); lra.
  - apply (Htrans 64 65); try lra.
    exists 65. split; [simpl; tauto | lra].
Defined.

(** ** The term aggregator *)

Lemma loop_body_emitted (tc tq : Q) (pc : list Processed.t)
    (course : Course.t) :
  loop_body (tc, tq, pc) course =
  if Course.excluded course then (tc, tq, pc ++ [emitted course])
  else (tc + Course.credits course,
        tq + Processed.qualityPoints (emitted course),
        pc ++ [emitted course]).
Proof.
  unfold loop_body, emitted.
  destruct (Course.excluded course); [reflexivity|].
  destruct (Course.repeated course && Qgtb (Course.gradePoint course) 3.33);
    reflexivity.
Qed.

Lemma emitted_excluded (course : Course.t) :
  Processed.excluded (emitted course) = Course.excluded course.
Proof.
  unfold emitted. destruct (Course.excluded course) eqn:E.
  - simpl. exact E.
  - destruct (Course.repeated course && _); simpl; exact E.
Qed.

Lemma emitted_credits (course : Course.t) :
  Processed.credits (emitted course) = Course.credits course.
Proof.
  unfold emitted. destruct (Course.excluded course).
  - reflexivity.
  - destruct (Course.repeated course && _); reflexivity.
Qed.

(** The loop, started in any state: the list grows by one element per
    record, in order, and the two totals grow by the contributions of the
    records that are not excluded. *)
Lemma loop_fold (rows : list Course.t) :
  forall (tc tq : Q) (pc : list Processed.t),
  exists tc' tq',
    fold_left loop_body rows (tc, tq, pc) = (tc', tq', pc ++ map emitted rows)
    /\ tc' == tc + Qsum (map Course.credits (included rows))
    /\ tq' == tq + Qsum (map Processed.qualityPoints
                           (map emitted (included rows))).
Proof.
  induction rows as [|course rows IH]; intros tc tq pc.
  - exists tc, tq. simpl. rewrite app_nil_r. repeat split; ring.
  - cbn [fold_left]. rewrite loop_body_emitted.
    unfold included. simpl filter.
    destruct (Course.excluded course) eqn:E; simpl negb; cbv iota.
    + destruct (IH tc tq (pc ++ [emitted course])) as (tc' & tq' & F & C & Q).
      exists tc', tq'. rewrite F, <- app_assoc. simpl.
      repeat split; assumption.
    + destruct (IH (tc + Course.credits course)
                   (tq + Processed.qualityPoints (emitted course))
                   (pc ++ [emitted course])) as (tc' & tq' & F & C & Q).
      exists tc', tq'. rewrite F, <- app_assoc. simpl.
      split; [reflexivity|].
      unfold included in C, Q. rewrite C, Q. unfold Qsum. split; ring.
Qed.

(** The result object in terms of the elements pushed and the sums. *)
Lemma computeTermGPA_spec (rows : list Course.t) :
  let r := computeTermGPA rows in
  Term.courses r = map emitted rows /\
  Term.totalCredits r == Qsum (map Course.credits (included rows)) /\
  Term.totalQualityPoints r ==
    Qsum (map Processed.qualityPoints (map emitted (included rows))) /\
  Term.gpa r =
    if Qgtb (Term.totalCredits r) 0
    then Term.totalQualityPoints r / Term.totalCredits r else 0.
Proof.
  unfold computeTermGPA.
  destruct (loop_fold rows 0 0 []) as (tc & tq & F & C & Q).
  rewrite F. simpl.
  repeat split; [rewrite C; ring | rewrite Q; ring].
Qed.

(** *** The repeat cap *)

(** What the cap does above its threshold: every part of the rule, with the
    constant [3.33] of the source for the capped grade point. *)
Lemma repeat_cap_above (course : Course.t) :
  Course.excluded course = false ->
  Course.repeated course = true ->
  3.33 < Course.gradePoint course ->
  Processed.gradePoint (emitted course) = 3.33 /\
  Processed.letter (emitted course) = "B+" /\
  Processed.wasCapped (emitted course) = Some true /\
  Processed.status (emitted course) = "capped" /\
  Processed.qualityPoints (emitted course) = Course.credits course * 3.33.
Proof.
  intros E R G. unfold emitted. rewrite E, R.
  apply Qgtb_true in G. rewrite G. simpl. repeat split.
Qed.

(** At or below the constant [3.33] of the source, the cap changes
    nothing. *)
Lemma repeat_cap_noop (course : Course.t) :
  Course.excluded course = false ->
  Course.gradePoint course <= 3.33 ->
  Processed.gradePoint (emitted course) = Course.gradePoint course /\
  Processed.letter (emitted course) = Course.letter course /\
  Processed.wasCapped (emitted course) = Some false /\
  Processed.status (emitted course) = "included" /\
  Processed.qualityPoints (emitted course) =
    Course.credits course * Course.gradePoint course.
Proof.
  intros E G. unfold emitted. rewrite E.
  apply Qgtb_false in G. rewrite G, andb_false_r. simpl. repeat split.
Qed.

(** A course that is not marked repeated is never capped. *)
Lemma not_repeated_noop (course : Course.t) :
  Course.excluded course = false ->
  Course.repeated course = false ->
  Processed.gradePoint (emitted course) = Course.gradePoint course /\
  Processed.letter (emitted course) = Course.letter course /\
  Processed.wasCapped (emitted course) = Some false /\
  Processed.status (emitted course) = "included".
Proof.
  intros E R. unfold emitted. rewrite E, R. simpl. repeat split.
Qed.

Lemma numeric_mapper_canonical (score : value) :
  is_canonical (Grade.point (mapNumericToGradePoint score)).
Proof.
  unfold is_canonical, canonical.
  destruct score as [n| | | | | |];
    try (simpl; apply Exists_cons_hd; reflexivity).
  destruct n as [q| | |];
    [ | do 8 apply Exists_cons_tl; apply Exists_cons_hd; reflexivity
      | apply Exists_cons_hd; reflexivity
      | apply Exists_cons_hd; reflexivity ].
  rewrite mapNumeric_finite. generalize (clamp q). intro s. unfold chain.
  split_chain s; cbn [Grade.point];
    repeat (first [apply Exists_cons_hd; reflexivity | apply Exists_cons_tl]).
Qed.

(** C1.  A 3-credit course at score 98 resolves to A = 4 and, not repeated,
    earns 12 quality points.  Marked repeated, [computeTermGPA] sets its
    letter to B+, [wasCapped] to true and its status to 'capped', but its
    grade point to 3.33, which is not 10/3, and its quality points to 9.99,
    not 10. *)
Theorem C1_repeat_cap_at_score_98 :
  let plain := computeTermGPA [numeric_course "1" "Course 1" 3 98 false false] in
  let again := computeTermGPA [numeric_course "1" "Course 1" 3 98 false true] in
  map Processed.gradePoint (Term.courses plain) = [4] /\
  Term.totalQualityPoints plain == 12 /\
  map Processed.letter (Term.courses again) = ["B+"] /\
  map Processed.wasCapped (Term.courses again) = [Some true] /\
  map Processed.status (Term.courses again) = ["capped"] /\
  map Processed.gradePoint (Term.courses again) = [3.33] /\
  ~ 3.33 == 10/3 /\
  map Processed.qualityPoints (Term.courses again) = [3 * 3.33] /\
  3 * 3.33 == 9.99 /\
  ~ 3 * 3.33 == 10 /\
  Term.totalQualityPoints again == 9.99.
Proof.
  cbv zeta.
  repeat split; try reflexivity; intro H; vm_compute in H; discriminate H.
Qed.

(** C2.  The letter mapper gives B+ the grade point 10/3.  A 3-credit course
    with that grade, marked repeated, does not go through [computeTermGPA]
    unchanged: 10/3 is above 3.33, so the cap applies, [wasCapped] is true,
    the status is 'capped', the grade point drops to 3.33 and the quality
    points to 9.99. *)
Theorem C2_repeat_cap_at_B_plus :
  let r := computeTermGPA
             [letter_course "1" "Course 1" 3 "B+" (10/3) false true] in
  mapLetterToGradePoint "B+" = VNumber (Fin (10/3)) /\
  map Processed.wasCapped (Term.courses r) = [Some true] /\
  map Processed.status (Term.courses r) = ["capped"] /\
  map Processed.letter (Term.courses r) = ["B+"] /\
  map Processed.gradePoint (Term.courses r) = [3.33] /\
  3.33 < 10/3 /\
  Term.totalQualityPoints r == 9.99 /\
  ~ Term.totalQualityPoints r == 10.
Proof.
  cbv zeta.
  repeat split; try reflexivity; intro H; vm_compute in H; discriminate H.
Qed.

(** C3.  The letter mapper gives A- the canonical grade point 11/3; for a
    repeated A- course the processed record carries the grade point 3.33,
    which is none of the nine canonical values. *)
Theorem C3_capped_grade_point_not_canonical :
  let r := computeTermGPA
             [letter_course "1" "Course 1" 3 "A-" (11/3) false true] in
  mapLetterToGradePoint "A-" = VNumber (Fin (11/3)) /\
  is_canonical (11/3) /\
  map Processed.excluded (Term.courses r) = [false] /\
  map Processed.gradePoint (Term.courses r) = [3.33] /\
  ~ is_canonical 3.33.
Proof.
  cbv zeta. split; [reflexivity|]. split.
  - unfold is_canonical, canonical.
    do 7 apply Exists_cons_tl. apply Exists_cons_hd. reflexivity.
  - split; [reflexivity|]. split; [reflexivity|].
    unfold is_canonical, canonical. intro H.
    repeat match goal with
    | H : Exists _ (_ :: _) |- _ => inversion H; clear H; subst
    | H : Exists _ [] |- _ => inversion H
    | H : _ == _ |- _ => vm_compute in H; discriminate H
    end.
Qed.

(** *** Excluded records *)

Lemma included_app (l1 l2 : list Course.t) :
  included (l1 ++ l2) = included l1 ++ included l2.
Proof. apply filter_app. Qed.

Lemma included_outputs (rows : list Course.t) :
  filter (fun p => negb (Processed.excluded p)) (map emitted rows) =
  map emitted (included rows).
Proof.
  induction rows as [|c rows IH]; [reflexivity|].
  unfold included in *. simpl. rewrite emitted_excluded, IH.
  destruct (Course.excluded c); reflexivity.
Qed.

#[local] Instance Qgtb_compat : Proper (Qeq ==> Qeq ==> eq) Qgtb.
Proof.
  intros a b E c d F. unfold Qgtb. now rewrite (Qleb_comp a b E c d F).
Qed.

(** The quotient of the result, from totals that are equal as rationals. *)
Lemma gpa_compat (r1 r2 : Term.t) :
  Term.gpa r1 =
    (if Qgtb (Term.totalCredits r1) 0
     then Term.totalQualityPoints r1 / Term.totalCredits r1 else 0) ->
  Term.gpa r2 =
    (if Qgtb (Term.totalCredits r2) 0
     then Term.totalQualityPoints r2 / Term.totalCredits r2 else 0) ->
  Term.totalCredits r1 == Term.totalCredits r2 ->
  Term.totalQualityPoints r1 == Term.totalQualityPoints r2 ->
  Term.gpa r1 == Term.gpa r2.
Proof.
  intros G1 G2 C Q. rewrite G1, G2, (Qgtb_compat _ _ C 0 0 (Qeq_refl 0)).
  destruct (Qgtb (Term.totalCredits r2) 0); [|reflexivity].
  rewrite C, Q. reflexivity.
Qed.

Lemma emitted_contribution (c : Course.t) :
  Course.excluded c = false ->
  Processed.qualityPoints (emitted c) = contribution c /\
  Processed.status (emitted c) <> "excluded".
Proof.
  intro E. unfold emitted, contribution, counted_gradePoint. rewrite E.
  destruct (Course.repeated c && Qgtb (Course.gradePoint c) 3.33);
    split; try reflexivity; discriminate.
Qed.

Lemma emitted_id (c : Course.t) : Processed.id (emitted c) = Course.id c.
Proof.
  unfold emitted. destruct (Course.excluded c); [reflexivity|].
  destruct (Course.repeated c && _); reflexivity.
Qed.

(** The loop, started in any state, operation by operation: the credits and
    the quality points of the records that count are added to the two
    totals from left to right, and nothing else is. *)
Lemma loop_fold_exact (rows : list Course.t) :
  forall (tc tq : Q) (pc : list Processed.t),
  fold_left loop_body rows (tc, tq, pc) =
  (fold_left Qplus (map Course.credits (included rows)) tc,
   fold_left Qplus (map contribution (included rows)) tq,
   pc ++ map emitted rows).
Proof.
  induction rows as [|c rows IH]; intros tc tq pc.
  - simpl. rewrite app_nil_r. reflexivity.
  - cbn [fold_left]. rewrite loop_body_emitted.
    unfold included in *. simpl filter.
    destruct (Course.excluded c) eqn:E; simpl negb; cbv iota.
    + rewrite IH, <- app_assoc. reflexivity.
    + rewrite IH, <- app_assoc.
      destruct (emitted_contribution c E) as (-> & _). reflexivity.
Qed.

Lemma counted_outputs (rows : list Course.t) :
  map Processed.qualityPoints
    (filter (fun p => negb (Processed.excluded p)) (map emitted rows)) =
  map contribution (included rows).
Proof.
  unfold included. induction rows as [|c rows IH]; [reflexivity|].
  simpl. rewrite emitted_excluded.
  destruct (Course.excluded c) eqn:E; simpl; [exact IH|].
  destruct (emitted_contribution c E) as (-> & _). rewrite IH. reflexivity.
Qed.

(** C6.  In the result of [computeTermGPA], [totalCredits] is the sum, from
    0 and in input order, of the credits of the input records that are not
    excluded, and [totalQualityPoints] the sum of their quality points
    (credits times the grade point the record is credited with), which is
    also the sum of the [qualityPoints] of the processed records that are
    not excluded.  A record with [excluded = true], whatever its credits,
    grade and [repeated] flag, appears in the processed list at its input
    position with [qualityPoints = 0] and [status = 'excluded']; a record
    that is not excluded appears at its position with its quality points
    and a status other than 'excluded'.  Taking an excluded record out of
    the input changes neither total nor the GPA. *)
Theorem C6_excluded_records_contribute_nothing (rows : list Course.t) :
  let r := computeTermGPA rows in
  Term.totalCredits r = running_sum (map Course.credits (included rows)) /\
  Term.totalQualityPoints r =
    running_sum (map contribution (included rows)) /\
  Term.totalQualityPoints r =
    running_sum (map Processed.qualityPoints
                   (filter (fun p => negb (Processed.excluded p))
                      (Term.courses r))) /\
  (forall i c,
     nth_error rows i = Some c -> Course.excluded c = true ->
     exists p,
       nth_error (Term.courses r) i = Some p /\
       Processed.id p = Course.id c /\
       Processed.excluded p = true /\
       Processed.qualityPoints p = 0 /\
       Processed.status p = "excluded") /\
  (forall i c,
     nth_error rows i = Some c -> Course.excluded c = false ->
     exists p,
       nth_error (Term.courses r) i = Some p /\
       Processed.id p = Course.id c /\
       Processed.excluded p = false /\
       Processed.credits p = Course.credits c /\
       Processed.qualityPoints p = contribution c /\
       Processed.status p <> "excluded") /\
  (forall pre c post,
     rows = pre ++ c :: post -> Course.excluded c = true ->
     let r' := computeTermGPA (pre ++ post) in
     Term.totalCredits r = Term.totalCredits r' /\
     Term.totalQualityPoints r = Term.totalQualityPoints r' /\
     Term.gpa r = Term.gpa r').
Proof.
  cbv zeta.
  assert (X : forall l,
            computeTermGPA l =
            Term.mk
              (if Qgtb (running_sum (map Course.credits (included l))) 0
               then running_sum (map contribution (included l)) /
                    running_sum (map Course.credits (included l))
               else 0)
              (running_sum (map Course.credits (included l)))
              (running_sum (map contribution (included l)))
              (map emitted l)).
  { intro l. unfold computeTermGPA. rewrite loop_fold_exact. reflexivity. }
  rewrite (X rows). cbn [Term.totalCredits Term.totalQualityPoints
                         Term.courses Term.gpa].
  split; [reflexivity|]. split; [reflexivity|]. split.
  { rewrite counted_outputs. reflexivity. }
  split; [|split].
  - intros i c Hi E. exists (emitted c). split.
    + apply map_nth_error. exact Hi.
    + unfold emitted. rewrite E. simpl. repeat split. exact E.
  - intros i c Hi E. exists (emitted c). split.
    + apply map_nth_error. exact Hi.
    + destruct (emitted_contribution c E) as (Q & S).
      split; [apply emitted_id|].
      split; [rewrite emitted_excluded; exact E|].
      split; [apply emitted_credits|]. split; assumption.
  - intros pre c post -> E. rewrite (X (pre ++ post)).
    cbn [Term.totalCredits Term.totalQualityPoints Term.gpa].
    assert (I : included (pre ++ c :: post) = included (pre ++ post)).
    { rewrite !included_app. unfold included at 2. simpl.
      rewrite E. reflexivity. }
    rewrite I. repeat split.
Qed.

Lemma C6_excluded_records_contribute_nothing_witness :
  (exists p,
     nth_error (Term.courses (computeTermGPA [withdrawn_A; kept_B_plus])) 0
       = Some p /\
     Processed.id p = "1" /\
     Processed.excluded p = true /\
     Processed.qualityPoints p = 0 /\
     Processed.status p = "excluded") /\
  (exists p,
     nth_error (Term.courses (computeTermGPA [withdrawn_A; kept_B_plus])) 1
       = Some p /\
     Processed.id p = "2" /\
     Processed.excluded p = false /\
     Processed.credits p = 3 /\
     Processed.qualityPoints p = contribution kept_B_plus /\
     Processed.status p <> "excluded") /\
  Term.totalCredits (computeTermGPA [withdrawn_A; kept_B_plus]) =
    Term.totalCredits (computeTermGPA [kept_B_plus]) /\
  Term.totalQualityPoints (computeTermGPA [withdrawn_A; kept_B_plus]) =
    Term.totalQualityPoints (computeTermGPA [kept_B_plus]) /\
  Term.gpa (computeTermGPA [withdrawn_A; kept_B_plus]) =
    Term.gpa (computeTermGPA [kept_B_plus]).
Proof.
  destruct (C6_excluded_records_contribute_nothing [withdrawn_A; kept_B_plus])
    as (_ & _ & _ & Hex & Hin & Hout).
  split; [|split].
  - apply (Hex 0%nat withdrawn_A); reflexivity.
  - apply (Hin 1%nat kept_B_plus); reflexivity.
  - apply (Hout [] withdrawn_A [kept_B_plus]); reflexivity.
Defined.

(** *** Defined values at the edges *)

Lemma all_excluded_included (rows : list Course.t) :
  Forall (fun c => Course.excluded c = true) rows -> included rows = [].
Proof.
  induction 1 as [|c rows E _ IH]; [reflexivity|].
  unfold included in *. simpl. rewrite E. exact IH.
Qed.

(** C7.  A score that is not a number, or is [NaN], maps to the pair
    ("Invalid", 0).  The empty course list gives [totalCredits = 0],
    [totalQualityPoints = 0] and [gpa = 0]; a list of excluded courses only
    gives zero totals and [gpa = 0]; and for every course list, either
    [totalCredits] is positive and [gpa] is the quotient of the totals, or
    [totalCredits] is not positive and [gpa] is 0, so the division is never
    evaluated with a zero divisor. *)
Theorem C7_defined_values_at_edges :
  (forall v, typeof v <> "number" \/ v = VNumber NaN ->
     mapNumericToGradePoint v = Grade.mk "Invalid" 0) /\
  computeTermGPA [] = Term.mk 0 0 0 [] /\
  (forall rows, Term.totalCredits (computeTermGPA rows) == 0 ->
     Term.gpa (computeTermGPA rows) = 0) /\
  (forall rows, Forall (fun c => Course.excluded c = true) rows ->
     Term.totalCredits (computeTermGPA rows) == 0 /\
     Term.totalQualityPoints (computeTermGPA rows) == 0 /\
     Term.gpa (computeTermGPA rows) = 0) /\
  (forall rows,
     let r := computeTermGPA rows in
     (0 < Term.totalCredits r /\
      Term.gpa r = Term.totalQualityPoints r / Term.totalCredits r) \/
     (Term.totalCredits r <= 0 /\ Term.gpa r = 0)).
Proof.
  assert (Z : forall rows, Term.totalCredits (computeTermGPA rows) == 0 ->
                Term.gpa (computeTermGPA rows) = 0).
  { intros rows H.
    destruct (computeTermGPA_spec rows) as (_ & _ & _ & Hg).
    rewrite Hg, (Qgtb_compat _ _ H 0 0 (Qeq_refl 0)). reflexivity. }
  split; [|split; [|split; [|split]]].
  - intros v [H | ->]; [|reflexivity].
    destruct v; try reflexivity. exfalso. apply H. reflexivity.
  - reflexivity.
  - exact Z.
  - intros rows H.
    destruct (computeTermGPA_spec rows) as (_ & Htc & Htq & _).
    rewrite (all_excluded_included rows H) in Htc, Htq. simpl in Htc, Htq.
    split; [exact Htc|]. split; [exact Htq|]. apply Z, Htc.
  - intros rows. cbv zeta.
    destruct (computeTermGPA_spec rows) as (_ & _ & _ & Hg).
    destruct (Qgtb (Term.totalCredits (computeTermGPA rows)) 0) eqn:E.
    + left. split; [apply Qgtb_true, E | exact Hg].
    + right. split; [apply Qgtb_false, E | exact Hg].
Qed.

Lemma C7_defined_values_at_edges_witness :
  mapNumericToGradePoint (VString "98") = Grade.mk "Invalid" 0 /\
  mapNumericToGradePoint (VNumber NaN) = Grade.mk "Invalid" 0 /\
  Term.gpa (computeTermGPA [withdrawn_A]) = 0.
Proof.
  destruct C7_defined_values_at_edges as (Hinvalid & _ & _ & Hout & _).
  split; [|split].
  - apply Hinvalid. left. discriminate.
  - apply Hinvalid. right. reflexivity.
  - apply Hout. repeat constructor.
Defined.

(** *** The processed list *)

Lemma emitted_annotated (c : Course.t) : annotated c (emitted c).
Proof.
  unfold annotated, emitted.
  destruct (Course.excluded c) eqn:E.
  - simpl. repeat split. exact E.
  - destruct (Course.repeated c) eqn:R;
      [destruct (Qgtb (Course.gradePoint c) 3.33)|]; simpl;
      (repeat split; try assumption);
      eexists; repeat split.
Qed.

(** C10, the claim as stated, fails: the processed record of an excluded
    course has no [wasCapped] property. *)
Lemma C10_excluded_record_lacks_wasCapped :
  ~ Forall carries_wasCapped (Term.courses (computeTermGPA [withdrawn_A])).
Proof.
  intro H. inversion H as [|p l [b Hb] _]. discriminate Hb.
Qed.

(** C10, amended.  The processed list of [computeTermGPA] has one record per
    input record, in input order.  Each keeps the [id], [name], [credits],
    [score], [excluded], [repeated] and [gradeType] of its input record and
    carries [qualityPoints] and [status].  A record that is not excluded
    carries [wasCapped] as well, with the status that goes with it
    ('capped' or 'included'), the resolved [gradePoint] and [letter] and
    [qualityPoints = credits * gradePoint].  An excluded record has
    [qualityPoints = 0] and [status = 'excluded'], keeps the [gradePoint]
    and [letter] of its input record and has no [wasCapped] property. *)
Theorem C10_processed_list_annotates_in_order (rows : list Course.t) :
  let out := Term.courses (computeTermGPA rows) in
  List.length out = List.length rows /\
  map Processed.id out = map Course.id rows /\
  Forall2 annotated rows out.
Proof.
  cbv zeta.
  destruct (computeTermGPA_spec rows) as (-> & _).
  split; [apply List.length_map|]. split.
  - rewrite map_map. apply map_ext. intro c.
    apply (emitted_annotated c).
  - induction rows as [|c rows IH]; constructor.
    + apply emitted_annotated.
    + exact IH.
Qed.

(** ** The cumulative combiner *)

(** C5.  [computeNewCGPA] takes the previous quality points from the
    explicit argument whenever one is given, whatever [prevCGPA * prevCredits]
    is, and computes them as [prevCGPA * prevCredits] otherwise; the new
    total credits are [prevCredits + termCredits], the new total quality
    points are the previous quality points plus the term's, and [cgpa] is
    their quotient when the new total credits are positive and 0
    otherwise. *)
Theorem C5_cumulative_combiner
    (prevGPA prevCredits termQP termCredits : Q) (explicitPrevQP : option Q) :
  let r := computeNewCGPA prevGPA prevCredits termQP termCredits
             explicitPrevQP in
  (forall e, explicitPrevQP = Some e -> Cumulative.prevQualityPoints r = e) /\
  (explicitPrevQP = None ->
     Cumulative.prevQualityPoints r = prevGPA * prevCredits) /\
  Cumulative.totalCredits r = prevCredits + termCredits /\
  Cumulative.totalQualityPoints r =
    Cumulative.prevQualityPoints r + termQP /\
  (0 < Cumulative.totalCredits r ->
     Cumulative.cgpa r =
       Cumulative.totalQualityPoints r / Cumulative.totalCredits r) /\
  (~ 0 < Cumulative.totalCredits r -> Cumulative.cgpa r = 0).
Proof.
  cbv zeta. unfold computeNewCGPA. cbn [Cumulative.prevQualityPoints
    Cumulative.totalCredits Cumulative.totalQualityPoints Cumulative.cgpa].
  split; [|split; [|split; [|split; [|split]]]].
  - intros e ->. reflexivity.
  - intros ->. reflexivity.
  - reflexivity.
  - reflexivity.
  - intro H. apply Qgtb_true in H. rewrite H. reflexivity.
  - intro H. destruct (Qgtb (prevCredits + termCredits) 0) eqn:E.
    + exfalso. apply H, Qgtb_true, E.
    + reflexivity.
Qed.

Lemma C5_cumulative_combiner_witness :
  Cumulative.prevQualityPoints (computeNewCGPA 3 30 11 3 (Some 100)) = 100 /\
  Cumulative.prevQualityPoints (computeNewCGPA 3 30 11 3 None) = 3 * 30 /\
  Cumulative.cgpa (computeNewCGPA 3 30 11 3 None) =
    Cumulative.totalQualityPoints (computeNewCGPA 3 30 11 3 None) /
    Cumulative.totalCredits (computeNewCGPA 3 30 11 3 None) /\
  Cumulative.cgpa (computeNewCGPA 0 0 0 0 None) = 0.
Proof.
  split; [|split; [|split]].
  - apply (C5_cumulative_combiner 3 30 11 3 (Some 100)). reflexivity.
  - apply (C5_cumulative_combiner 3 30 11 3 None). reflexivity.
  - apply (C5_cumulative_combiner 3 30 11 3 None). reflexivity.
  - apply (C5_cumulative_combiner 0 0 0 0 None). discriminate.
Defined.

(** ** The letter mapper and the display inverse *)

Lemma assoc_absent {A : Type} (key : string) (l : list (string * A)) :
  ~ In key (map fst l) -> assoc key l = None.
Proof.
  induction l as [|[k v] l IH]; intro H; [reflexivity|].
  simpl. destruct (String.eqb k key) eqn:E.
  - apply String.eqb_eq in E. exfalso. apply H. left. exact E.
  - apply IH. intro I. apply H. right. exact I.
Qed.

(** The table of the nine letters, and three times each grade point. *)
Lemma letter_mapper_table :
  mapLetterToGradePoint "A" = VNumber (Fin 4) /\
  mapLetterToGradePoint "A-" = VNumber (Fin (11/3)) /\
  mapLetterToGradePoint "B+" = VNumber (Fin (10/3)) /\
  mapLetterToGradePoint "B" = VNumber (Fin 3) /\
  mapLetterToGradePoint "B-" = VNumber (Fin (8/3)) /\
  mapLetterToGradePoint "C+" = VNumber (Fin (7/3)) /\
  mapLetterToGradePoint "C" = VNumber (Fin 2) /\
  mapLetterToGradePoint "C-" = VNumber (Fin (5/3)) /\
  mapLetterToGradePoint "F" = VNumber (Fin 0) /\
  Forall2 (fun lq k => snd lq * 3 == inject_Z k) gradePoints
    [12; 11; 10; 9; 8; 7; 6; 5; 0]%Z.
Proof.
  repeat (split; [reflexivity|]).
  unfold gradePoints. repeat (constructor; [reflexivity|]). constructor.
Qed.

(** A letter that is neither one of the nine nor the name of a member of
    [Object.prototype] maps to 0; the empty string is one of them. *)
Lemma letter_mapper_unknown (letter : string) :
  ~ In letter letters ->
  ~ In letter (map fst Object_prototype) ->
  mapLetterToGradePoint letter = VNumber (Fin 0).
Proof.
  intros H1 H2. unfold mapLetterToGradePoint, get.
  rewrite (assoc_absent letter gradePoints H1).
  rewrite (assoc_absent letter Object_prototype H2). reflexivity.
Qed.

Lemma letter_mapper_empty : mapLetterToGradePoint "" = VNumber (Fin 0).
Proof. reflexivity. Qed.

(** C8.  For the letter "constructor", which is none of the nine letters,
    [mapLetterToGradePoint] does not return 0: the lookup
    [gradePoints[letter]] finds the member [constructor] that the object
    literal inherits, [??] keeps it, and the function returns a function
    object instead of a number. *)
Theorem C8_letter_mapper_inherited_name :
  ~ In "constructor" letters /\
  mapLetterToGradePoint "constructor" = VFunction "Object" /\
  mapLetterToGradePoint "constructor" <> VNumber (Fin 0) /\
  typeof (mapLetterToGradePoint "constructor") <> "number".
Proof.
  split; [|split; [|split]].
  - unfold letters. simpl. intuition discriminate.
  - reflexivity.
  - discriminate.
  - discriminate.
Qed.

(** C9, the claim as stated, fails at C-: the letter mapper gives C- the
    grade point 5/3, which is below the threshold 1.67 of
    [getLetterFromPoint], so the inverse answers F. *)
Lemma C9_round_trip_fails_at_C_minus :
  In "C-" letters /\
  mapLetterToGradePoint "C-" = VNumber (Fin (5/3)) /\
  5/3 < 1.67 /\
  getLetterFromPoint (Fin (5/3)) = "F" /\
  ~ round_trip "C-".
Proof.
  split; [|split; [|split; [|split]]].
  - unfold letters. simpl. tauto.
  - reflexivity.
  - reflexivity.
  - reflexivity.
  - intros (n & Hn & Hl). vm_compute in Hn. injection Hn as <-.
    vm_compute in Hl. discriminate Hl.
Qed.

(** C9, amended.  For each of the eight valid letters other than C-, that is
    A, A-, B+, B, B-, C+, C and F, [getLetterFromPoint] applied to the grade
    point [mapLetterToGradePoint] gives for the letter returns the letter,
    with the thresholds 4.00, 3.66, 3.33, 3.00, 2.66, 2.33, 2.00 and 1.67 of
    [getLetterFromPoint]. *)
Theorem C9_round_trip_except_C_minus (x : string) :
  In x letters -> x <> "C-" -> round_trip x.
Proof.
  unfold letters, round_trip. simpl. intros H N.
  repeat (destruct H as [<- | H];
          [first [congruence | eexists; split; reflexivity]|]).
  contradiction.
Qed.

Lemma C9_round_trip_except_C_minus_witness :
  round_trip "A-" /\ round_trip "B+" /\ round_trip "F".
Proof.
  split; [|split]; apply C9_round_trip_except_C_minus;
    solve [unfold letters; simpl; tauto | discriminate].
Defined.

(** * Further properties of the code *)

(** ** The two mappers and the display inverse together *)

(** X1.  The numeric mapper answers "Invalid" exactly for the scores that
    are not numbers or are [NaN]; for every other score its letter is one
    of the nine letters of the table. *)
Theorem numeric_mapper_letters (v : value) :
  (Grade.letter (mapNumericToGradePoint v) = "Invalid" <->
   typeof v <> "number" \/ v = VNumber NaN) /\
  (Grade.letter (mapNumericToGradePoint v) = "Invalid" \/
   In (Grade.letter (mapNumericToGradePoint v)) letters).
Proof.
  destruct v as [n| | | | | |];
    try (split; [split; [intros _; left; discriminate | reflexivity]
                |left; reflexivity]).
  destruct n as [q| | |].
  - rewrite mapNumeric_finite. generalize (clamp q). intro s.
    unfold chain, letters. split.
    + split.
      * split_chain s; cbn [Grade.letter]; discriminate.
      * intros [H | H]; [exfalso; apply H; reflexivity | discriminate H].
    + right. split_chain s; cbn [Grade.letter]; simpl; tauto.
  - split.
    + split; [discriminate|].
      intros [H | H]; [exfalso; apply H; reflexivity | discriminate H].
    + right. unfold letters. simpl. tauto.
  - split.
    + split; [discriminate|].
      intros [H | H]; [exfalso; apply H; reflexivity | discriminate H].
    + right. unfold letters. simpl. tauto.
  - split; [|left; reflexivity].
    split; [intros _; right; reflexivity | reflexivity].
Qed.

(** X2.  The two mappers agree: the letter mapper, applied to the letter
    the numeric mapper gives a score, returns the grade point the numeric
    mapper gives that score, for every score, "Invalid" ones included. *)
Theorem mappers_agree (v : value) :
  mapLetterToGradePoint (Grade.letter (mapNumericToGradePoint v)) =
  VNumber (Fin (Grade.point (mapNumericToGradePoint v))).
Proof.
  destruct v as [n| | | | | |]; try reflexivity.
  destruct n as [q| | |]; try reflexivity.
  rewrite mapNumeric_finite. generalize (clamp q). intro s. unfold chain.
  split_chain s; reflexivity.
Qed.

Lemma getLetterFromPoint_finite (p : Q) :
  getLetterFromPoint (Fin p) =
  if Qgeb p 4.00 then "A"
  else if Qgeb p 3.66 then "A-"
  else if Qgeb p 3.33 then "B+"
  else if Qgeb p 3.00 then "B"
  else if Qgeb p 2.66 then "B-"
  else if Qgeb p 2.33 then "C+"
  else if Qgeb p 2.00 then "C"
  else if Qgeb p 1.67 then "C-"
  else "F".
Proof. reflexivity. Qed.

(** X3.  [getLetterFromPoint] answers one of the nine letters for every
    number: F for [NaN] and [-Infinity], A for [Infinity].  On finite
    points it is monotone: a higher point never gets a letter with a lower
    grade point in the table. *)
Theorem display_inverse_range_monotone :
  (forall n, In (getLetterFromPoint n) letters) /\
  getLetterFromPoint NaN = "F" /\
  getLetterFromPoint NegInfinity = "F" /\
  getLetterFromPoint Infinity = "A" /\
  (forall x y, x <= y ->
     letterPoint (getLetterFromPoint (Fin x)) <=
     letterPoint (getLetterFromPoint (Fin y))).
Proof.
  split; [|split; [|split; [|split]]]; try reflexivity.
  - intros [p| | |]; try (unfold letters; simpl; tauto).
    rewrite getLetterFromPoint_finite. unfold letters.
    split_chain p; simpl; tauto.
  - intros x y H. rewrite !getLetterFromPoint_finite.
    split_chain x; split_chain y;
      solve [exfalso; lra | unfold letterPoint, Qle; simpl; lia].
Qed.

(** X4.  After the numeric mapper, the display inverse gives back the
    letter of every finite score except those graded C-: for a score in
    [60, 65) the grade point is 5/3 and the inverse answers F. *)
Theorem display_inverse_after_numeric_mapper (q : Q) :
  (60 <= q < 65 ->
     Grade.letter (scoreToGrade q) = "C-" /\
     getLetterFromPoint (Fin (Grade.point (scoreToGrade q))) = "F") /\
  (~ 60 <= q < 65 ->
     getLetterFromPoint (Fin (Grade.point (scoreToGrade q))) =
     Grade.letter (scoreToGrade q)).
Proof.
  unfold scoreToGrade. rewrite mapNumeric_finite.
  assert (C : (q <= 0 /\ clamp q == 0) \/ (100 <= q /\ clamp q == 100) \/
              (0 <= q <= 100 /\ clamp q == q)).
  { destruct (Qlt_le_dec q 0) as [L | L].
    - left. split; [lra | apply clamp_below; lra].
    - destruct (Qlt_le_dec 100 q) as [G | G].
      + right. left. split; [lra | apply clamp_above; lra].
      + right. right. split; [lra | apply clamp_inside; lra]. }
  revert C. generalize (clamp q). intros s C. unfold chain. split.
  - intro H. split_chain s; cbn [Grade.letter Grade.point];
      solve [exfalso; lra | split; reflexivity].
  - intro H. split_chain s; cbn [Grade.letter Grade.point];
      solve [reflexivity | exfalso; apply H; lra].
Qed.

Lemma display_inverse_after_numeric_mapper_witness :
  getLetterFromPoint (Fin (Grade.point (scoreToGrade 62))) = "F" /\
  getLetterFromPoint (Fin (Grade.point (scoreToGrade 91))) =
    Grade.letter (scoreToGrade 91).
Proof.
  split.
  - apply (display_inverse_after_numeric_mapper 62). lra.
  - apply (display_inverse_after_numeric_mapper 91). lra.
Defined.

(** ** The cap and the total credits of the term aggregator *)

Lemma emitted_gradePoint_le (c : Course.t) :
  Processed.gradePoint (emitted c) <= Course.gradePoint c.
Proof.
  unfold emitted. destruct (Course.excluded c); [apply Qle_refl|].
  destruct (Course.repeated c); cbn [andb]; [|apply Qle_refl].
  destruct (Qgtb (Course.gradePoint c) 3.33) eqn:G; cbn [Processed.gradePoint
    spread_included]; [|apply Qle_refl].
  apply Qgtb_true in G. apply Qlt_le_weak, G.
Qed.

(** X5.  The cap never raises a grade: every processed record has a grade
    point at most that of its input record; it is marked capped exactly
    when the input record is not excluded, is repeated and has a grade
    point above 3.33, and then its grade point is 3.33 and its letter B+;
    in every other case grade point and letter are those of the input. *)
Theorem cap_never_raises (rows : list Course.t) :
  Forall2
    (fun c p =>
       Processed.gradePoint p <= Course.gradePoint c /\
       (Processed.wasCapped p = Some true <->
        Course.excluded c = false /\ Course.repeated c = true /\
        3.33 < Course.gradePoint c) /\
       (Processed.wasCapped p = Some true ->
        Processed.gradePoint p = 3.33 /\ Processed.letter p = "B+") /\
       (Processed.wasCapped p <> Some true ->
        Processed.gradePoint p = Course.gradePoint c /\
        Processed.letter p = Course.letter c))
    rows (Term.courses (computeTermGPA rows)).
Proof.
  destruct (computeTermGPA_spec rows) as (-> & _).
  induction rows as [|c rows IH]; constructor; [|exact IH].
  split; [apply emitted_gradePoint_le|].
  unfold emitted. destruct (Course.excluded c) eqn:E.
  - cbn. repeat split; try discriminate; try tauto.
    intros (F & _). discriminate F.
  - destruct (Course.repeated c) eqn:R; cbn [andb].
    + destruct (Qgtb (Course.gradePoint c) 3.33) eqn:G; cbn.
      * apply Qgtb_true in G. repeat split; congruence.
      * apply Qgtb_false in G. repeat split; try discriminate; try tauto.
        intros (_ & _ & L). exfalso. apply (Qlt_not_le _ _ L G).
    + cbn. repeat split; try discriminate; try tauto.
      intros (_ & F & _). discriminate F.
Qed.

Lemma included_credits_nonneg (rows : list Course.t) :
  (forall c, In c rows -> Course.excluded c = false ->
     0 < Course.credits c) ->
  0 <= Qsum (map Course.credits (included rows)).
Proof.
  unfold included. induction rows as [|c rows IH]; intro H; [simpl; lra|].
  simpl filter. destruct (Course.excluded c) eqn:E; simpl negb; cbv iota.
  - apply IH. intros c' I. apply H. right. exact I.
  - simpl. assert (0 < Course.credits c) by (apply H; [left|]; trivial).
    assert (0 <= Qsum (map Course.credits
              (filter (fun c => negb (Course.excluded c)) rows)))
      by (apply IH; intros c' I; apply H; right; exact I).
    lra.
Qed.

Lemma included_credits_positive (rows : list Course.t) :
  (exists c, In c rows /\ Course.excluded c = false) ->
  (forall c, In c rows -> Course.excluded c = false ->
     0 < Course.credits c) ->
  0 < Qsum (map Course.credits (included rows)).
Proof.
  intros (c0 & I0 & E0). revert I0.
  induction rows as [|c rows IH]; intros I0 Hpos; [contradiction|].
  assert (Hpos' : forall c', In c' rows -> Course.excluded c' = false ->
            0 < Course.credits c')
    by (intros c' I; apply Hpos; right; exact I).
  unfold included in *. simpl filter. destruct I0 as [-> | I0].
  - rewrite E0. simpl.
    assert (0 < Course.credits c0) by (apply Hpos; [left|]; trivial).
    assert (N := included_credits_nonneg rows Hpos').
    unfold included in N. lra.
  - assert (IH' := IH I0 Hpos').
    destruct (Course.excluded c) eqn:E; simpl negb; cbv iota; [exact IH'|].
    simpl. assert (0 < Course.credits c) by (apply Hpos; [left|]; trivial).
    lra.
Qed.

(** X8.  When at least one record counts and every record that counts has
    positive credits, the total credits are positive and the GPA is the
    quotient of the totals: the fallback value 0 is not used. *)
Theorem positive_credits_divide (rows : list Course.t) :
  (exists c, In c rows /\ Course.excluded c = false) ->
  (forall c, In c rows -> Course.excluded c = false ->
     0 < Course.credits c) ->
  0 < Term.totalCredits (computeTermGPA rows) /\
  Term.gpa (computeTermGPA rows) =
    Term.totalQualityPoints (computeTermGPA rows) /
    Term.totalCredits (computeTermGPA rows).
Proof.
  intros Hex Hpos.
  destruct (computeTermGPA_spec rows) as (_ & Htc & _ & Hg).
  assert (P := included_credits_positive rows Hex Hpos).
  rewrite <- Htc in P. split; [exact P|].
  rewrite Hg. apply Qgtb_true in P. rewrite P. reflexivity.
Qed.

Lemma positive_credits_divide_witness :
  0 < Term.totalCredits (computeTermGPA [withdrawn_A; kept_B_plus]).
Proof.
  apply (positive_credits_divide [withdrawn_A; kept_B_plus]).
  - exists kept_B_plus. split; [right; left; reflexivity | reflexivity].
  - intros c [<- | [<- | []]] E; [discriminate E | reflexivity].
Defined.

(** ** The cumulative combiner after the aggregator *)

(** X14.  With no previous credits and no explicit quality points, the
    [cgpa] the combiner returns for the totals of a term is the GPA of
    that term, and its totals are the totals of the term, for every course
    list and whatever previous GPA is passed. *)
Theorem combiner_without_previous_credits (rows : list Course.t)
    (anyGPA : Q) :
  let r := computeTermGPA rows in
  let c := computeNewCGPA anyGPA 0 (Term.totalQualityPoints r)
             (Term.totalCredits r) None in
  Cumulative.prevQualityPoints c == 0 /\
  Cumulative.totalCredits c == Term.totalCredits r /\
  Cumulative.totalQualityPoints c == Term.totalQualityPoints r /\
  Cumulative.cgpa c == Term.gpa r.
Proof.
  cbv zeta.
  destruct (computeTermGPA_spec rows) as (_ & _ & _ & Hg).
  rewrite Hg. unfold computeNewCGPA.
  cbn [Cumulative.cgpa Cumulative.totalCredits Cumulative.totalQualityPoints
       Cumulative.prevQualityPoints].
  assert (E : 0 + Term.totalCredits (computeTermGPA rows) ==
              Term.totalCredits (computeTermGPA rows)) by ring.
  split; [ring|]. split; [exact E|]. split; [ring|].
  rewrite (Qgtb_compat _ _ E 0 0 (Qeq_refl 0)).
  destruct (Qgtb (Term.totalCredits (computeTermGPA rows)) 0);
    [|reflexivity].
  rewrite E. apply Qmult_comp; [ring | reflexivity].
Qed.

(** ** Validation of the course list *)

Section Validation.

Variable StringToNumber : string -> number.

Lemma validate_course_app (num : nat) (c : Course.t) (errors : list string) :
  validate_course StringToNumber num c errors =
  errors ++ validate_course StringToNumber num c [].
Proof.
  unfold validate_course.
  destruct (Qle_bool (Course.credits c) 0), (Qgtb (Course.credits c) 6),
    (negb (Course.excluded c)), (String.eqb (Course.gradeType c) "numeric"),
    (is_null (Course.score c)
     || isNaN (ToNumber StringToNumber (Course.score c))),
    ((ToNumber StringToNumber (Course.score c) <? Fin 0)%number
     || (ToNumber StringToNumber (Course.score c) >? Fin 100)%number),
    (String.eqb (Course.letter c) "");
    simpl; rewrite ?app_nil_r, <- ?app_assoc; reflexivity.
Qed.

Lemma forEach_validate_app (courses : list Course.t) :
  forall index errors,
  forEach_validate StringToNumber courses index errors =
  errors ++ forEach_validate StringToNumber courses index [].
Proof.
  induction courses as [|c courses IH]; intros index errors; simpl.
  - rewrite app_nil_r. reflexivity.
  - rewrite IH, validate_course_app.
    rewrite (IH _ (validate_course StringToNumber (index + 1) c [])).
    rewrite app_assoc. reflexivity.
Qed.

Lemma number_in_range (n : number) (lo hi : Q) :
  isNaN n = false /\ (n <? Fin lo)%number = false /\
  (n >? Fin hi)%number = false <->
  exists q, n = Fin q /\ lo <= q <= hi.
Proof.
  split.
  - intros (N & L & G). destruct n as [q| | |]; try discriminate.
    exists q. split; [reflexivity|].
    unfold number_gtb, number_ltb in *.
    apply Qgtb_false in L, G. split; assumption.
  - intros (q & -> & L & G). unfold number_gtb, number_ltb.
    repeat split; apply Qgtb_false; assumption.
Qed.

Lemma validate_course_accepts (num : nat) (c : Course.t) :
  validate_course StringToNumber num c [] = [] <->
  valid_course StringToNumber c.
Proof.
  unfold validate_course, valid_course.
  destruct (Qle_bool (Course.credits c) 0) eqn:C0.
  { apply Qle_bool_iff in C0. split.
    - intro H. exfalso.
      destruct (Qgtb (Course.credits c) 6), (negb (Course.excluded c)),
        (String.eqb (Course.gradeType c) "numeric"),
        (is_null (Course.score c)
         || isNaN (ToNumber StringToNumber (Course.score c))),
        ((ToNumber StringToNumber (Course.score c) <? Fin 0)%number
         || (ToNumber StringToNumber (Course.score c) >? Fin 100)%number),
        (String.eqb (Course.letter c) ""); discriminate H.
    - intros ((P & _) & _). exfalso. apply (Qlt_not_le _ _ P C0). }
  assert (P : 0 < Course.credits c).
  { apply Qnot_le_lt. intro L. apply Qle_bool_iff in L. congruence. }
  destruct (Qgtb (Course.credits c) 6) eqn:C6.
  { apply Qgtb_true in C6. split.
    - intro H. exfalso.
      destruct (negb (Course.excluded c)),
        (String.eqb (Course.gradeType c) "numeric"),
        (is_null (Course.score c)
         || isNaN (ToNumber StringToNumber (Course.score c))),
        ((ToNumber StringToNumber (Course.score c) <? Fin 0)%number
         || (ToNumber StringToNumber (Course.score c) >? Fin 100)%number),
        (String.eqb (Course.letter c) ""); discriminate H.
    - intros ((_ & L) & _). exfalso. apply (Qlt_not_le _ _ C6 L). }
  apply Qgtb_false in C6.
  destruct (Course.excluded c) eqn:E; simpl negb; cbv iota.
  { split; [|reflexivity]. intros _. split; [tauto | discriminate]. }
  destruct (String.eqb (Course.gradeType c) "numeric").
  - destruct (is_null (Course.score c)) eqn:N; cbn [orb].
    { split; [discriminate|]. intros (_ & H). destruct (H eq_refl) as (K & _).
      destruct (Course.score c); try discriminate N. contradiction. }
    assert (NN : Course.score c <> VNull)
      by (intro K; rewrite K in N; discriminate N).
    destruct (isNaN (ToNumber StringToNumber (Course.score c))) eqn:A.
    { split; [discriminate|]. intros (_ & H).
      destruct (H eq_refl) as (_ & q & K & _). rewrite K in A.
      discriminate A. }
    destruct ((ToNumber StringToNumber (Course.score c) <? Fin 0)%number)
      eqn:L; cbn [orb].
    { split; [discriminate|]. intros (_ & H).
      destruct (H eq_refl) as (_ & K).
      apply number_in_range in K. destruct K as (_ & K & _). congruence. }
    destruct ((ToNumber StringToNumber (Course.score c) >? Fin 100)%number)
      eqn:G.
    { split; [discriminate|]. intros (_ & H).
      destruct (H eq_refl) as (_ & K).
      apply number_in_range in K. destruct K as (_ & _ & K). congruence. }
    split; [|reflexivity]. intros _. split; [tauto|]. intros _.
    split; [exact NN|]. apply number_in_range. tauto.
  - destruct (String.eqb (Course.letter c) "") eqn:L.
    + apply String.eqb_eq in L. split; [discriminate|].
      intros (_ & H). exfalso. apply (H eq_refl), L.
    + apply String.eqb_neq in L. split; [|reflexivity].
      intros _. split; [tauto|]. intros _. exact L.
Qed.

Lemma forEach_validate_accepts (courses : list Course.t) :
  forall index,
  forEach_validate StringToNumber courses index [] = [] <->
  Forall (valid_course StringToNumber) courses.
Proof.
  induction courses as [|c courses IH]; intro index; simpl.
  - split; [constructor | reflexivity].
  - rewrite forEach_validate_app. split.
    + intro H. apply app_eq_nil in H. destruct H as (H1 & H2).
      constructor; [apply (validate_course_accepts (index + 1) c), H1
                   |apply (IH (S index)), H2].
    + intro H. inversion H as [|c' l' V F]; subst.
      apply (validate_course_accepts (index + 1)) in V.
      apply (IH (S index)) in F. rewrite V, F. reflexivity.
Qed.

(** X15.  [validateCourses] reports nothing exactly for a list that is not
    empty and whose courses all have credits above 0 and at most 6 and,
    unless excluded, a grade: for the grade type 'numeric' a score that is
    not [null] and converts to a number from 0 to 100, for any other grade
    type a non-empty letter.  The grade of an excluded course is not
    looked at, its credits are.  For the empty list it reports the one
    message asking for a course. *)
Theorem validateCourses_accepts (courses : list Course.t) :
  (validateCourses StringToNumber courses = [] <->
   courses <> [] /\ Forall (valid_course StringToNumber) courses) /\
  (courses = [] ->
   validateCourses StringToNumber courses =
   ["Please add at least one course."]).
Proof.
  unfold validateCourses. destruct courses as [|c courses].
  - simpl. split; [|reflexivity]. split; [discriminate|].
    intros (H & _). contradiction.
  - cbn [List.length Nat.eqb]. split; [|discriminate].
    rewrite forEach_validate_accepts. split.
    + intro H. split; [discriminate | exact H].
    + intros (_ & H). exact H.
Qed.

Lemma validate_course_messages (num : nat) (c : Course.t) :
  Forall (course_message num) (validate_course StringToNumber num c []) /\
  (List.length (validate_course StringToNumber num c []) <= 2)%nat.
Proof.
  unfold validate_course.
  assert (X : ~ (Qle_bool (Course.credits c) 0 = true /\
                 Qgtb (Course.credits c) 6 = true)).
  { intros (A & B). apply Qle_bool_iff in A. apply Qgtb_true in B. lra. }
  destruct (Qle_bool (Course.credits c) 0), (Qgtb (Course.credits c) 6);
    try (exfalso; apply X; split; reflexivity);
  destruct (negb (Course.excluded c)),
    (String.eqb (Course.gradeType c) "numeric"),
    (is_null (Course.score c)
     || isNaN (ToNumber StringToNumber (Course.score c))),
    ((ToNumber StringToNumber (Course.score c) <? Fin 0)%number
     || (ToNumber StringToNumber (Course.score c) >? Fin 100)%number),
    (String.eqb (Course.letter c) "");
    cbn [app List.length];
    (split; [repeat constructor; eexists; reflexivity | lia]).
Qed.

Lemma forEach_validate_groups (courses : list Course.t) :
  forall index,
  exists groups,
    forEach_validate StringToNumber courses index [] = List.concat groups /\
    List.length groups = List.length courses /\
    forall k msgs,
      nth_error groups k = Some msgs ->
      (List.length msgs <= 2)%nat /\
      Forall (course_message (index + k + 1)) msgs.
Proof.
  induction courses as [|c courses IH]; intro index.
  - exists []. split; [reflexivity|]. split; [reflexivity|].
    intros [|k] msgs H; discriminate H.
  - destruct (IH (S index)) as (groups & E & L & G).
    exists (validate_course StringToNumber (index + 1) c [] :: groups).
    cbn [forEach_validate List.concat List.length].
    rewrite forEach_validate_app, E, L.
    split; [reflexivity|]. split; [reflexivity|].
    intros [|k] msgs H.
    + injection H as <-. rewrite Nat.add_0_r.
      destruct (validate_course_messages (index + 1) c) as (M & B).
      split; assumption.
    + destruct (G k msgs H) as (B & M). split; [exact B|].
      replace (index + S k + 1)%nat with (S index + k + 1)%nat by lia.
      exact M.
Qed.

(** X16.  For a list that is not empty, the messages of [validateCourses]
    come course by course, in the order of the list: they are the
    concatenation of one group of messages for each course, the group of
    the course at position k (counted from 1) has at most two messages,
    and each of them starts with "Course k: ". *)
Theorem validateCourses_messages (courses : list Course.t) :
  courses <> [] ->
  exists groups,
    validateCourses StringToNumber courses = List.concat groups /\
    List.length groups = List.length courses /\
    forall k msgs,
      nth_error groups k = Some msgs ->
      (List.length msgs <= 2)%nat /\
      Forall (course_message (k + 1)) msgs.
Proof.
  intro N. unfold validateCourses.
  destruct courses as [|c courses]; [contradiction|].
  cbn [List.length Nat.eqb].
  destruct (forEach_validate_groups (c :: courses) 0) as (groups & E & L & G).
  exists groups. split; [exact E|]. split; [exact L|].
  intros k msgs H. apply (G k msgs H).
Qed.

End Validation.

Lemma validateCourses_accepts_witness :
  validateCourses (fun _ => NaN) [withdrawn_A; kept_B_plus] = [] /\
  validateCourses (fun _ => NaN) [] = ["Please add at least one course."].
Proof.
  split.
  - apply (validateCourses_accepts (fun _ => NaN) [withdrawn_A; kept_B_plus]).
    split; [discriminate|].
    repeat constructor; try discriminate.
  - apply (validateCourses_accepts (fun _ => NaN) []). reflexivity.
Defined.

Lemma validateCourses_messages_witness :
  exists groups,
    validateCourses (fun _ => NaN)
      [letter_course "1" "Course 1" 0 "" 0 false false; kept_B_plus]
      = List.concat groups /\
    List.length groups = 2%nat /\
    forall k msgs,
      nth_error groups k = Some msgs ->
      (List.length msgs <= 2)%nat /\
      Forall (course_message (k + 1)) msgs.
Proof.
  apply (validateCourses_messages (fun _ => NaN)
           [letter_course "1" "Course 1" 0 "" 0 false false; kept_B_plus]).
  discriminate.
Defined.

(** ** Validation of the previous record *)

Lemma validateCGPAInputs_nil (mode : string) (prevCGPA prevCredits : number) :
  validateCGPAInputs mode prevCGPA prevCredits = [] ->
  mode = "cgpa" ->
  (exists g, prevCGPA = Fin g /\ 0 <= g <= 4) /\
  (prevCredits = Infinity \/ exists k, prevCredits = Fin k /\ 0 <= k).
Proof.
  intros H M. unfold validateCGPAInputs in H.
  rewrite M in H. simpl negb in H. cbv iota zeta in H.
  destruct (isNaN prevCGPA || (prevCGPA <? Fin 0)%number
            || (prevCGPA >? Fin 4)%number) eqn:A;
    [destruct (isNaN prevCredits || (prevCredits <? Fin 0)%number);
       discriminate H|].
  destruct (isNaN prevCredits || (prevCredits <? Fin 0)%number) eqn:B;
    [discriminate H|].
  apply orb_false_iff in A. destruct A as (A & A3).
  apply orb_false_iff in A. destruct A as (A1 & A2).
  apply orb_false_iff in B. destruct B as (B1 & B2).
  split.
  - apply number_in_range. tauto.
  - destruct prevCredits as [k| | |]; try discriminate.
    + right. exists k. split; [reflexivity|].
      unfold number_ltb in B2. apply Qgtb_false in B2. exact B2.
    + left. reflexivity.
Qed.

(** X17.  [validateCGPAInputs] reports nothing exactly when the mode is
    not 'cgpa', or the previous CGPA is a finite number from 0 to 4 and the
    previous credits are a non-negative number, [Infinity] included; it
    never reports more than two messages. *)
Theorem validateCGPAInputs_accepts (mode : string)
    (prevCGPA prevCredits : number) :
  (validateCGPAInputs mode prevCGPA prevCredits = [] <->
   mode <> "cgpa" \/
   ((exists g, prevCGPA = Fin g /\ 0 <= g <= 4) /\
    (prevCredits = Infinity \/ exists k, prevCredits = Fin k /\ 0 <= k))) /\
  (List.length (validateCGPAInputs mode prevCGPA prevCredits) <= 2)%nat.
Proof.
  split.
  - split.
    + intro H. destruct (String.eqb mode "cgpa") eqn:M.
      * right. apply String.eqb_eq in M.
        apply (validateCGPAInputs_nil mode); assumption.
      * left. apply String.eqb_neq, M.
    + unfold validateCGPAInputs. intros [M | (G & K)].
      * apply String.eqb_neq in M. rewrite M. reflexivity.
      * destruct (String.eqb mode "cgpa"); [|reflexivity]. simpl negb.
        cbv iota zeta.
        apply number_in_range in G. destruct G as (G1 & G2 & G3).
        rewrite G1, G2, G3. simpl.
        destruct K as [-> | (k & -> & K)]; [reflexivity|].
        unfold number_ltb. apply Qgtb_false in K. rewrite K. reflexivity.
  - unfold validateCGPAInputs.
    destruct (negb (String.eqb mode "cgpa")); [simpl; lia|].
    destruct (isNaN prevCGPA || (prevCGPA <? Fin 0)%number
              || (prevCGPA >? Fin 4)%number),
      (isNaN prevCredits || (prevCredits <? Fin 0)%number); simpl; lia.
Qed.

(** ** The calculation as a whole *)

Section CalculateProperties.

Variable StringToNumber : string -> number.

(** What holds of the inputs when [calculate] gets to [renderResults]. *)
Lemma calculate_render_inv (mode : string) (courses : list Course.t)
    (f1 f2 : parsed) (r : Result.t) :
  calculate StringToNumber mode courses f1 f2 = RenderResults r ->
  validateCourses StringToNumber courses = [] /\
  validateCGPAInputs mode f1 f2 = [] /\
  (exists c, In c courses /\ Course.excluded c = false) /\
  Forall (valid_course StringToNumber) courses /\
  r = Result.mk (computeTermGPA courses) (Term.gpa (computeTermGPA courses))
        (if String.eqb mode "cgpa"
         then Some (combine (or_zero f1) (or_zero f2)
                      (Term.totalQualityPoints (computeTermGPA courses))
                      (Term.totalCredits (computeTermGPA courses)))
         else None).
Proof.
  unfold calculate.
  destruct (validateCourses StringToNumber courses ++
            validateCGPAInputs mode f1 f2)
    as [|e errs] eqn:A; [|discriminate].
  apply app_eq_nil in A. destruct A as (A1 & A2).
  cbn [List.length Nat.ltb Nat.leb].
  destruct (filter (fun c => negb (Course.excluded c)) courses)
    as [|c0 l] eqn:F; [discriminate|].
  cbn [List.length Nat.eqb]. intro H.
  split; [exact A1|]. split; [exact A2|]. split.
  - exists c0.
    assert (I : In c0 (filter (fun c => negb (Course.excluded c)) courses))
      by (rewrite F; left; reflexivity).
    apply filter_In in I. destruct I as (I & E).
    split; [exact I|]. apply negb_true_iff, E.
  - split.
    + unfold validateCourses in A1.
      destruct courses as [|c courses]; [discriminate A1|].
      cbn [List.length Nat.eqb] in A1.
      apply (forEach_validate_accepts StringToNumber (c :: courses) 0), A1.
    + destruct (String.eqb mode "cgpa"); injection H as <-; reflexivity.
Qed.

(** X18.  When [calculate] renders a result, the course list passed
    validation and has a course that counts; the result carries the term
    aggregate of the list, whose total credits are positive, so its GPA is
    the quotient of the totals and not the fallback 0.  Outside CGPA mode
    the result has no cumulative part.  In CGPA mode the previous CGPA is a
    finite number from 0 to 4 and the previous credits are [Infinity] or a
    finite non-negative number.  With [Infinity] the call of
    [computeNewCGPA] gets a previous record that is not finite.  With
    finite previous credits the cumulative part is what [computeNewCGPA]
    returns for the previous record and the term totals without explicit
    quality points; its total credits are positive and its [cgpa] is the
    quotient of its totals. *)
Theorem calculate_renders (mode : string) (courses : list Course.t)
    (f1 f2 : parsed) (r : Result.t) :
  calculate StringToNumber mode courses f1 f2 = RenderResults r ->
  validateCourses StringToNumber courses = [] /\
  (exists c, In c courses /\ Course.excluded c = false) /\
  Result.termResult r = computeTermGPA courses /\
  0 < Term.totalCredits (Result.termResult r) /\
  Result.gpa r =
    Term.totalQualityPoints (Result.termResult r) /
    Term.totalCredits (Result.termResult r) /\
  (mode <> "cgpa" -> Result.cumulative r = None) /\
  (mode = "cgpa" ->
   exists g,
     f1 = Fin g /\ 0 <= g <= 4 /\
     ((f2 = Infinity /\
       exists pg, Result.cumulative r = Some (NonFinite (Fin pg) Infinity) /\
                  pg == g) \/
      (exists k pg pk cum,
         f2 = Fin k /\ 0 <= k /\
         Result.cumulative r = Some (Combined cum pg pk) /\
         pg == g /\ pk == k /\
         cum = computeNewCGPA pg pk
                 (Term.totalQualityPoints (computeTermGPA courses))
                 (Term.totalCredits (computeTermGPA courses)) None /\
         0 < Cumulative.totalCredits cum /\
         Cumulative.cgpa cum =
           Cumulative.totalQualityPoints cum /
           Cumulative.totalCredits cum))).
Proof.
  intro H.
  destruct (calculate_render_inv mode courses f1 f2 r H)
    as (A1 & A2 & Hex & V & ->).
  cbn [Result.termResult Result.gpa Result.cumulative].
  assert (Hpos : forall c, In c courses -> Course.excluded c = false ->
                 0 < Course.credits c).
  { intros c I _. rewrite Forall_forall in V. apply (V c I). }
  destruct (computeTermGPA_spec courses) as (_ & Htc & _ & Hg).
  assert (P := included_credits_positive courses Hex Hpos).
  rewrite <- Htc in P. apply Qgtb_true in P as P'.
  split; [exact A1|]. split; [exact Hex|]. split; [reflexivity|].
  split; [exact P|]. split; [rewrite Hg, P'; reflexivity|]. split.
  - intro M. apply String.eqb_neq in M. rewrite M. reflexivity.
  - intro M. destruct (validateCGPAInputs_nil _ _ _ A2 M)
      as ((g & -> & Gr) & K).
    exists g. split; [reflexivity|]. split; [exact Gr|]. rewrite M.
    assert (Og : exists pg, or_zero (Fin g) = Fin pg /\ pg == g).
    { unfold or_zero. destruct (Qeq_bool g 0) eqn:Z.
      - exists 0. split; [reflexivity|]. apply Qeq_bool_eq in Z.
        symmetry. exact Z.
      - exists g. split; reflexivity. }
    destruct Og as (pg & Og & Eg). rewrite Og.
    destruct K as [-> | (k & -> & Kr)].
    + left. split; [reflexivity|]. exists pg. split; [reflexivity | exact Eg].
    + right.
      assert (Ok : exists pk, or_zero (Fin k) = Fin pk /\ pk == k).
      { unfold or_zero. destruct (Qeq_bool k 0) eqn:Z.
        - exists 0. split; [reflexivity|]. apply Qeq_bool_eq in Z.
          symmetry. exact Z.
        - exists k. split; reflexivity. }
      destruct Ok as (pk & Ok & Ek). rewrite Ok.
      exists k, pg, pk. eexists. cbn [combine].
      split; [reflexivity|]. split; [exact Kr|]. split; [reflexivity|].
      split; [exact Eg|]. split; [exact Ek|]. split; [reflexivity|].
      unfold computeNewCGPA.
      cbn [Cumulative.totalCredits Cumulative.cgpa
           Cumulative.totalQualityPoints].
      assert (S : 0 < pk + Term.totalCredits (computeTermGPA courses))
        by lra.
      split; [exact S|]. apply Qgtb_true in S. rewrite S. reflexivity.
Qed.

(** X19.  [calculate] never shows an empty list of errors, and it never
    renders a result for a list whose courses are all excluded: it shows
    errors instead. *)
Theorem calculate_shows_errors (mode : string) (courses : list Course.t)
    (f1 f2 : parsed) :
  (forall errors,
     calculate StringToNumber mode courses f1 f2 = ShowErrors errors ->
     errors <> []) /\
  (Forall (fun c => Course.excluded c = true) courses ->
   exists errors,
     calculate StringToNumber mode courses f1 f2 = ShowErrors errors /\
     errors <> []).
Proof.
  assert (E : forall errors,
            calculate StringToNumber mode courses f1 f2 = ShowErrors errors ->
            errors <> []).
  { intros errors. unfold calculate.
    destruct (validateCourses StringToNumber courses ++
              validateCGPAInputs mode f1 f2)
      as [|e errs]; cbn [List.length Nat.ltb Nat.leb].
    - destruct (Nat.eqb _ 0).
      + intro H. injection H as <-. discriminate.
      + destruct (String.eqb mode "cgpa"); discriminate.
    - intro H. injection H as <-. discriminate. }
  split; [exact E|]. intro A.
  destruct (calculate StringToNumber mode courses f1 f2) as [errors|r] eqn:C.
  - exists errors. split; [reflexivity | apply E; reflexivity].
  - exfalso.
    destruct (calculate_render_inv mode courses f1 f2 r C)
      as (_ & _ & (c & I & X) & _).
    rewrite Forall_forall in A. rewrite (A c I) in X. discriminate X.
Qed.

End CalculateProperties.

Lemma calculate_renders_witness :
  exists r,
    calculate (fun _ => NaN) "cgpa" [withdrawn_A; kept_B_plus]
      (Fin 3) (Fin 30) = RenderResults r /\
    0 < Term.totalCredits (Result.termResult r).
Proof.
  eexists. split; [reflexivity|].
  eapply (calculate_renders (fun _ => NaN) "cgpa" [withdrawn_A; kept_B_plus]
            (Fin 3) (Fin 30)).
  reflexivity.
Defined.

Lemma calculate_shows_errors_witness :
  exists errors,
    calculate (fun _ => NaN) "term" [withdrawn_A] NaN NaN
      = ShowErrors errors /\ errors <> [].
Proof.
  apply (calculate_shows_errors (fun _ => NaN) "term" [withdrawn_A] NaN NaN).
  repeat constructor.
Defined.

(** ** The renderer and the exporter after the aggregator *)

Lemma emitted_labels (c : Course.t) :
  csvStatus (emitted c) = status_label (Processed.status (emitted c)) /\
  rowClass (emitted c) = status_class (Processed.status (emitted c)) /\
  Processed.excluded (emitted c) = Course.excluded c /\
  truthy_wasCapped (emitted c) = cap_applies c.
Proof.
  unfold emitted, cap_applies, csvStatus, rowClass, truthy_wasCapped.
  destruct (Course.excluded c) eqn:E.
  - cbn. rewrite E. repeat split.
  - destruct (Course.repeated c), (Qgtb (Course.gradePoint c) 3.33);
      cbn; rewrite E; repeat split.
Qed.

Lemma filter_length_map {A B : Type} (f : A -> B) (p : B -> bool)
    (q : A -> bool) (l : list A) :
  (forall a, p (f a) = q a) ->
  List.length (filter p (map f l)) = List.length (filter q l).
Proof.
  intro H. induction l as [|a l IH]; [reflexivity|].
  simpl. rewrite H. destruct (q a); simpl; rewrite IH; reflexivity.
Qed.

(** X21.  What the renderer and the exporter derive from the processed
    list agrees with the aggregator: the status column of the export and
    the class of the table row are the ones that go with the [status]
    property of each processed record; the number of excluded records
    shown is the number of excluded input records, the number of capped
    records shown is the number of input records that are not excluded,
    are repeated and have a grade point above 3.33, and the two together
    never exceed the number of courses. *)
Theorem renderer_agrees_with_aggregator (rows : list Course.t) :
  let out := Term.courses (computeTermGPA rows) in
  Forall (fun p => csvStatus p = status_label (Processed.status p) /\
                   rowClass p = status_class (Processed.status p)) out /\
  excludedCount out = List.length (filter Course.excluded rows) /\
  cappedCount out = List.length (filter cap_applies rows) /\
  (excludedCount out + cappedCount out <= List.length rows)%nat.
Proof.
  cbv zeta. destruct (computeTermGPA_spec rows) as (-> & _).
  assert (X : excludedCount (map emitted rows) =
              List.length (filter Course.excluded rows)).
  { apply filter_length_map. intro c. apply emitted_labels. }
  assert (K : cappedCount (map emitted rows) =
              List.length (filter cap_applies rows)).
  { apply filter_length_map. intro c. apply emitted_labels. }
  split; [|split; [exact X|split; [exact K|]]].
  - apply Forall_forall. intros p I. apply in_map_iff in I.
    destruct I as (c & <- & _). split; apply emitted_labels.
  - rewrite X, K. clear X K.
    induction rows as [|c rows IH]; [simpl; lia|].
    unfold cap_applies in *. simpl.
    destruct (Course.excluded c); simpl.
    + lia.
    + destruct (Course.repeated c && Qgtb (Course.gradePoint c) 3.33);
        simpl; lia.
Qed.

(** ** The course rows of the page *)

Lemma descending_below_weaken (rows : list nat) (b b' : nat) :
  (b <= b')%nat -> descending_below b rows -> descending_below b' rows.
Proof.
  destruct rows as [|r rest]; simpl; [trivial|].
  intros L (R & D). split; [lia | exact D].
Qed.

Lemma descending_below_bounds (rows : list nat) :
  forall b, descending_below b rows ->
  forall id, In id rows -> (1 <= id <= b)%nat.
Proof.
  induction rows as [|r rest IH]; intros b D id I; [contradiction|].
  destruct D as (R & D). destruct I as [<- | I]; [exact R|].
  assert (K := IH (r - 1)%nat D id I). lia.
Qed.

Lemma descending_below_NoDup (rows : list nat) :
  forall b, descending_below b rows -> NoDup rows.
Proof.
  induction rows as [|r rest IH]; intros b D; constructor.
  - destruct D as (_ & D). intro I.
    assert (K := descending_below_bounds rest (r - 1)%nat D r I). lia.
  - destruct D as (_ & D). apply (IH (r - 1)%nat D).
Qed.

Lemma descending_below_remove (id : nat) (rows : list nat) :
  forall b, descending_below b rows -> descending_below b (remove_row id rows).
Proof.
  induction rows as [|r rest IH]; intros b D; [exact D|].
  destruct D as (R & D). simpl. destruct (Nat.eqb r id).
  - apply (descending_below_weaken rest (r - 1) b); [lia | exact D].
  - split; [exact R | apply IH, D].
Qed.

Lemma reachable_descending (st : App.state) :
  reachable st -> descending_below (App.courseCounter st) (App.rows st).
Proof.
  induction 1 as [|st e _ IH].
  - simpl. lia.
  - destruct e as [|id|id|confirmed|value]; simpl.
    + split; [lia|]. rewrite Nat.sub_0_r. exact IH.
    + exact IH.
    + apply descending_below_remove, IH.
    + destruct confirmed; simpl; [exact I | exact IH].
    + exact IH.
Qed.

(** X22.  Whatever sequence of adding courses, asking for removals,
    removal timers firing, resets and mode changes the page goes through
    after loading, the ids of the course rows are distinct and lie between
    1 and the counter, newest row first; so the id given to the next added
    course is not in use.  A call of [removeCourse] leaves the rows as they
    are and schedules a removal exactly when a row carries the id. *)
Theorem course_ids_unique (st : App.state) :
  reachable st ->
  NoDup (App.rows st) /\
  (forall id, In id (App.rows st) ->
     (1 <= id <= App.courseCounter st)%nat) /\
  ~ In (S (App.courseCounter st)) (App.rows st) /\
  NoDup (App.rows (addCourse st)) /\
  (forall id, fst (removeCourse id st) = st /\
              (snd (removeCourse id st) = Some id <-> In id (App.rows st))).
Proof.
  intro R. assert (D := reachable_descending st R).
  assert (N := descending_below_NoDup _ _ D).
  assert (B := descending_below_bounds _ _ D).
  assert (F : ~ In (S (App.courseCounter st)) (App.rows st)).
  { intro I. apply B in I. lia. }
  split; [exact N|]. split; [exact B|]. split; [exact F|]. split.
  - simpl. constructor; assumption.
  - intro id. split; [reflexivity|]. unfold removeCourse. cbn [snd].
    destruct (existsb (Nat.eqb id) (App.rows st)) eqn:X.
    + split; [intros _ | reflexivity].
      apply existsb_exists in X. destruct X as (x & I & E).
      apply Nat.eqb_eq in E. subst x. exact I.
    + split; [discriminate|]. intro I. exfalso.
      assert (Y : existsb (Nat.eqb id) (App.rows st) = true).
      { apply existsb_exists. exists id. split; [exact I|].
        apply Nat.eqb_refl. }
      congruence.
Qed.

Lemma course_ids_unique_witness :
  NoDup (App.rows (handle (handle (handle (handle loaded_state AddCourse)
                                     (RemoveCourse 1)) (TimerFires 1))
                     AddCourse)).
Proof.
  apply course_ids_unique. repeat constructor.
Defined.

Lemma display_inverse_range_monotone_witness :
  letterPoint (getLetterFromPoint (Fin 2.5)) <=
  letterPoint (getLetterFromPoint (Fin 3.7)).
Proof.
  apply display_inverse_range_monotone. vm_compute. discriminate.
Defined.

(** ** The literals of the source on binary64 floats *)

(** The comparisons and products between literals of the source that decide
    the properties above, evaluated on IEEE-754 binary64 floats: each has
    the outcome it has on the rationals. *)
Module Binary64.

#[local] Set Warnings "-inexact-float".

Lemma cap_constant_below_B_plus : (3.33 <? 10 / 3)%float = true.
Proof. reflexivity. Qed.

Lemma capped_quality_points :
  (3 * 3.33 =? 10)%float = false /\ (3 * (10 / 3) =? 10)%float = true.
Proof. split; reflexivity. Qed.

Lemma thirds_times_three :
  ((11 / 3) * 3 =? 11)%float = true /\
  ((10 / 3) * 3 =? 10)%float = true /\
  ((8 / 3) * 3 =? 8)%float = true /\
  ((7 / 3) * 3 =? 7)%float = true /\
  ((5 / 3) * 3 =? 5)%float = true.
Proof. repeat split; reflexivity. Qed.

Lemma display_thresholds :
  (3.66 <=? 11 / 3)%float = true /\
  (3.33 <=? 10 / 3)%float = true /\
  (2.66 <=? 8 / 3)%float = true /\
  (2.33 <=? 7 / 3)%float = true /\
  (1.67 <=? 5 / 3)%float = false.
Proof. repeat split; reflexivity. Qed.

End Binary64.
